(** * givenergy_modbus/client/commands.py: the command builder

    A shallow embedding of [RegisterMap] and [CommandBuilder]: every method
    of the Python class becomes a function returning the list of requests
    it builds; a method that can raise returns a [result]. Python integers
    are [Z], f-strings are built with [pretty], the reflective
    [getattr(RegisterMap, name)] is a lookup in a finite map from attribute
    names to addresses. *)

From Stdlib Require Import ZArith DecimalString.
From stdpp Require Import gmap strings list pretty.

Local Open Scope Z_scope.

(** ** Python values and exceptions *)

(** The second argument of a register write: the source passes either an
    [int] or one of the literals [True] / [False]. *)
Inductive value :=
| VInt (z : Z)
| VBool (b : bool).

(** [int(v)] on such a value: [True] is 1 and [False] is 0. *)
Definition value_as_int (v : value) : Z :=
  match v with
  | VInt z => z
  | VBool b => Z.b2z b
  end.

(** The exceptions the module can raise. A failed range check raises
    [ValueError] with a formatted message; this is the error the
    specification names InvalidParameter. *)
Inductive exception :=
| ValueError (msg : string)
| AttributeError (name : string)
| TypeError (msg : string).

Inductive result (A : Type) :=
| Return (a : A)
| Raise (e : exception).

Arguments Return {A} a.
Arguments Raise {A} e.

#[global] Instance result_ret : MRet result := λ A a, Return a.
#[global] Instance result_bind : MBind result := λ A B f m,
  match m with
  | Return a => f a
  | Raise e => Raise e
  end.

#[global] Instance value_eq_dec : EqDecision value.
Proof. solve_decision. Defined.
#[global] Instance exception_eq_dec : EqDecision exception.
Proof. solve_decision. Defined.
#[global] Instance result_eq_dec `{EqDecision A} : EqDecision (result A).
Proof. solve_decision. Defined.

(** [int(s)] on a decimal literal; anything else is a [ValueError]. *)
Definition int_of_str (s : string) : result Z :=
  match NilZero.int_of_string s with
  | Some d => Return (Z.of_int d)
  | None =>
      Raise (ValueError ("invalid literal for int() with base 10: '" +:+ s +:+ "'"))
  end.

(** ** The collaborators the module imports *)

(** Modelled from the spec: the request classes of the [pdu] module are not
    among the sources. §3 gives the three variants and their fields: a read
    carries (slave address, base register, count), a write carries
    (register address, value). *)
Inductive TransparentRequest :=
| ReadHoldingRegistersRequest (slave_address base_register register_count : Z)
| ReadInputRegistersRequest (slave_address base_register register_count : Z)
| WriteHoldingRegisterRequest (register : Z) (val : value).

#[global] Instance TransparentRequest_eq_dec : EqDecision TransparentRequest.
Proof. solve_decision. Defined.

(** Modelled from the spec: the [Model] enumeration of [model.inverter] is
    not among the sources. §6 gives its value set as the all-in-one variant
    and at least one other family; "unspecified" is Python's [None], that
    is [option Model]. *)
Inductive Model :=
| ALL_IN_ONE
| OTHER_FAMILY (code : nat).

#[global] Instance Model_eq_dec : EqDecision Model.
Proof. solve_decision. Defined.

(** [datetime.time]: the fields [strftime("%H%M")] reads, and the seconds
    it ignores. *)
Record time := { t_hour : Z; t_minute : Z; t_second : Z }.

(** The range the [datetime] constructors enforce. *)
Definition valid_time (t : time) : Prop :=
  0 ≤ t_hour t < 24 ∧ 0 ≤ t_minute t < 60 ∧ 0 ≤ t_second t < 60.

#[global] Instance valid_time_dec t : Decision (valid_time t).
Proof. unfold valid_time. apply _. Defined.

(** [datetime.datetime]. *)
Record datetime := {
  year : Z; month : Z; day : Z; hour : Z; minute : Z; second : Z
}.

(** Modelled from the spec: the [TimeSlot] class of the [model] package is
    not among the sources. §3 describes it as a value object holding a
    start and an end clock time; it defines no truth value of its own, so
    [if slot:] only tells a slot from [None]. *)
Record TimeSlot := { start : time; end_ : time }.

Definition valid_slot (s : TimeSlot) : Prop :=
  valid_time (start s) ∧ valid_time (end_ s).

#[global] Instance valid_slot_dec s : Decision (valid_slot s).
Proof. unfold valid_slot. apply _. Defined.

(** A [%H] or [%M] field: two digits, zero padded. *)
Definition zero_pad2 (n : Z) : string :=
  if bool_decide (n < 10) then "0" +:+ pretty n else pretty n.

(** [t.strftime("%H%M")]. *)
Definition strftime_HM (t : time) : string :=
  zero_pad2 (t_hour t) +:+ zero_pad2 (t_minute t).

(** ** class RegisterMap *)

Module RegisterMap.

Definition ENABLE_CHARGE_TARGET : Z := 20.
Definition BATTERY_POWER_MODE : Z := 27.
Definition SOC_FORCE_ADJUST : Z := 29.
Definition CHARGE_SLOT_2_START : Z := 31.
Definition CHARGE_SLOT_2_END : Z := 32.
Definition SYSTEM_TIME_YEAR : Z := 35.
Definition SYSTEM_TIME_MONTH : Z := 36.
Definition SYSTEM_TIME_DAY : Z := 37.
Definition SYSTEM_TIME_HOUR : Z := 38.
Definition SYSTEM_TIME_MINUTE : Z := 39.
Definition SYSTEM_TIME_SECOND : Z := 40.
Definition DISCHARGE_SLOT_2_START : Z := 44.
Definition DISCHARGE_SLOT_2_END : Z := 45.
Definition ACTIVE_POWER_RATE : Z := 50.
Definition DISCHARGE_SLOT_1_START : Z := 56.
Definition DISCHARGE_SLOT_1_END : Z := 57.
Definition ENABLE_DISCHARGE : Z := 59.
Definition CHARGE_SLOT_1_START : Z := 94.
Definition CHARGE_SLOT_1_END : Z := 95.
Definition ENABLE_CHARGE : Z := 96.
Definition BATTERY_SOC_RESERVE : Z := 110.
Definition BATTERY_CHARGE_LIMIT : Z := 111.
Definition BATTERY_DISCHARGE_LIMIT : Z := 112.
Definition BATTERY_DISCHARGE_MIN_POWER_RESERVE : Z := 114.
Definition CHARGE_TARGET_SOC : Z := 116.
Definition REBOOT : Z := 163.
Definition BATTERY_PAUSE_MODE : Z := 318.
Definition BATTERY_PAUSE_SLOT_START : Z := 319.
Definition BATTERY_PAUSE_SLOT_END : Z := 320.

(** The class body in declaration order: attribute name and address. *)
Definition declarations : list (string * Z) := [
  ("ENABLE_CHARGE_TARGET", ENABLE_CHARGE_TARGET);
  ("BATTERY_POWER_MODE", BATTERY_POWER_MODE);
  ("SOC_FORCE_ADJUST", SOC_FORCE_ADJUST);
  ("CHARGE_SLOT_2_START", CHARGE_SLOT_2_START);
  ("CHARGE_SLOT_2_END", CHARGE_SLOT_2_END);
  ("SYSTEM_TIME_YEAR", SYSTEM_TIME_YEAR);
  ("SYSTEM_TIME_MONTH", SYSTEM_TIME_MONTH);
  ("SYSTEM_TIME_DAY", SYSTEM_TIME_DAY);
  ("SYSTEM_TIME_HOUR", SYSTEM_TIME_HOUR);
  ("SYSTEM_TIME_MINUTE", SYSTEM_TIME_MINUTE);
  ("SYSTEM_TIME_SECOND", SYSTEM_TIME_SECOND);
  ("DISCHARGE_SLOT_2_START", DISCHARGE_SLOT_2_START);
  ("DISCHARGE_SLOT_2_END", DISCHARGE_SLOT_2_END);
  ("ACTIVE_POWER_RATE", ACTIVE_POWER_RATE);
  ("DISCHARGE_SLOT_1_START", DISCHARGE_SLOT_1_START);
  ("DISCHARGE_SLOT_1_END", DISCHARGE_SLOT_1_END);
  ("ENABLE_DISCHARGE", ENABLE_DISCHARGE);
  ("CHARGE_SLOT_1_START", CHARGE_SLOT_1_START);
  ("CHARGE_SLOT_1_END", CHARGE_SLOT_1_END);
  ("ENABLE_CHARGE", ENABLE_CHARGE);
  ("BATTERY_SOC_RESERVE", BATTERY_SOC_RESERVE);
  ("BATTERY_CHARGE_LIMIT", BATTERY_CHARGE_LIMIT);
  ("BATTERY_DISCHARGE_LIMIT", BATTERY_DISCHARGE_LIMIT);
  ("BATTERY_DISCHARGE_MIN_POWER_RESERVE", BATTERY_DISCHARGE_MIN_POWER_RESERVE);
  ("CHARGE_TARGET_SOC", CHARGE_TARGET_SOC);
  ("REBOOT", REBOOT);
  ("BATTERY_PAUSE_MODE", BATTERY_PAUSE_MODE);
  ("BATTERY_PAUSE_SLOT_START", BATTERY_PAUSE_SLOT_START);
  ("BATTERY_PAUSE_SLOT_END", BATTERY_PAUSE_SLOT_END)
]%string.

(** The class namespace that [getattr] consults. *)
Definition attributes : gmap string Z := list_to_map declarations.

(** The addresses the map declares. *)
Definition addresses : list Z := declarations.*2.

End RegisterMap.

(** [getattr(RegisterMap, name)]. *)
Definition getattr_RegisterMap (name : string) : result Z :=
  match RegisterMap.attributes !! name with
  | Some address => Return address
  | None =>
      Raise (AttributeError
        ("type object 'RegisterMap' has no attribute '" +:+ name +:+ "'"))
  end.

(** ** class CommandBuilder *)

Module CommandBuilder.

Record t := { model : option Model; main_slave_address : Z }.

(** [__init__]: [model in [None, Model.ALL_IN_ONE]] picks the primary
    slave address. *)
Definition init (model : option Model) : t :=
  {| model := model;
     main_slave_address :=
       if bool_decide (model ∈ [None; Some ALL_IN_ONE]) then 0x11 else 0x32 |}.

Definition refresh_additional_holding_registers
    (self : t) (base_register : Z) : list TransparentRequest :=
  [ReadHoldingRegistersRequest (main_slave_address self) base_register 60].

(** [requests.append(x)] in a loop over [xs]. *)
Definition append_each {A B} (f : A → list B) (requests : list B) (xs : list A)
    : list B :=
  foldl (λ requests x, requests ++ f x) requests xs.

(** [additional_holding_registers] is [None] or a list; an empty list is as
    false as [None]. [range(n)] is [seqZ 0 n], empty for [n ≤ 0]. *)
Definition refresh_plant_data
    (self : t) (complete : bool) (number_batteries max_batteries : Z)
    (additional_holding_registers : option (list Z))
    : list TransparentRequest :=
  let requests :=
    [ReadInputRegistersRequest (main_slave_address self) 0 60] in
  let '(requests, number_batteries) :=
    if complete then
      let requests := requests ++
        [ReadHoldingRegistersRequest (main_slave_address self) 0 60] in
      let requests := requests ++
        [ReadHoldingRegistersRequest (main_slave_address self) 60 60] in
      let requests := requests ++
        [ReadInputRegistersRequest (main_slave_address self) 120 60] in
      if bool_decide (model self ∉ [None; Some ALL_IN_ONE])
      then (requests, max_batteries)
      else (requests, number_batteries)
    else (requests, number_batteries) in
  let requests :=
    append_each (λ i, [ReadInputRegistersRequest (0x32 + i) 60 60])
      requests (seqZ 0 number_batteries) in
  match additional_holding_registers with
  | Some ((_ :: _) as hrs) =>
      append_each (refresh_additional_holding_registers self) requests hrs
  | _ => requests
  end.

(** The defaults of the signature: one battery, a ceiling of five, no
    extra registers. *)
Definition refresh_plant_data_default (self : t) (complete : bool)
    : list TransparentRequest :=
  refresh_plant_data self complete 1 5 None.

Definition disable_charge_target : list TransparentRequest :=
  [WriteHoldingRegisterRequest RegisterMap.ENABLE_CHARGE_TARGET (VBool false);
   WriteHoldingRegisterRequest RegisterMap.CHARGE_TARGET_SOC (VInt 100)].

Definition set_charge_target (target_soc : Z)
    : result (list TransparentRequest) :=
  if negb (bool_decide (4 ≤ target_soc ≤ 100)) then
    Raise (ValueError
      ("Charge Target SOC (" +:+ pretty target_soc +:+ ") must be in [4-100]%"))
  else
    Return [WriteHoldingRegisterRequest RegisterMap.CHARGE_TARGET_SOC
              (VInt target_soc)].

Definition set_enable_charge (enabled : bool) : list TransparentRequest :=
  [WriteHoldingRegisterRequest RegisterMap.ENABLE_CHARGE (VBool enabled)].

Definition set_enable_charge_target (enabled : bool)
    : list TransparentRequest :=
  [WriteHoldingRegisterRequest RegisterMap.ENABLE_CHARGE_TARGET (VBool enabled)].

Definition set_enable_discharge (enabled : bool) : list TransparentRequest :=
  [WriteHoldingRegisterRequest RegisterMap.ENABLE_DISCHARGE (VBool enabled)].

Definition set_inverter_reboot : list TransparentRequest :=
  [WriteHoldingRegisterRequest RegisterMap.REBOOT (VInt 100)].

Definition set_calibrate_battery_soc : list TransparentRequest :=
  [WriteHoldingRegisterRequest RegisterMap.SOC_FORCE_ADJUST (VInt 1)].

Definition enable_charge : list TransparentRequest := set_enable_charge true.

Definition disable_charge : list TransparentRequest := set_enable_charge false.

Definition enable_discharge : list TransparentRequest :=
  set_enable_discharge true.

Definition disable_discharge : list TransparentRequest :=
  set_enable_discharge false.

Definition set_discharge_mode_max_power : list TransparentRequest :=
  [WriteHoldingRegisterRequest RegisterMap.BATTERY_POWER_MODE (VInt 0)].

Definition set_discharge_mode_to_match_demand : list TransparentRequest :=
  [WriteHoldingRegisterRequest RegisterMap.BATTERY_POWER_MODE (VInt 1)].

(** [val = int(val)] on an argument that is an [int] already. *)
Definition int (val : Z) : Z := val.

Definition set_battery_soc_reserve (val : Z)
    : result (list TransparentRequest) :=
  let val := int val in
  if negb (bool_decide (4 ≤ val ≤ 100)) then
    Raise (ValueError
      ("Minimum SOC / shallow charge (" +:+ pretty val +:+ ") must be in [4-100]%"))
  else
    Return [WriteHoldingRegisterRequest RegisterMap.BATTERY_SOC_RESERVE (VInt val)].

(** The body of [set_shallow_charge]; its [def] carries [@deprecated] but no
    [@staticmethod], see [methods] below. *)
Definition set_shallow_charge (val : Z) : result (list TransparentRequest) :=
  set_battery_soc_reserve val.

Definition set_battery_charge_limit (val : Z)
    : result (list TransparentRequest) :=
  let val := int val in
  if negb (bool_decide (0 ≤ val ≤ 50)) then
    Raise (ValueError
      ("Specified Charge Limit (" +:+ pretty val +:+ "%) is not in [0-50]%"))
  else
    Return [WriteHoldingRegisterRequest RegisterMap.BATTERY_CHARGE_LIMIT (VInt val)].

Definition set_battery_discharge_limit (val : Z)
    : result (list TransparentRequest) :=
  let val := int val in
  if negb (bool_decide (0 ≤ val ≤ 50)) then
    Raise (ValueError
      ("Specified Discharge Limit (" +:+ pretty val +:+ "%) is not in [0-50]%"))
  else
    Return [WriteHoldingRegisterRequest RegisterMap.BATTERY_DISCHARGE_LIMIT
              (VInt val)].

Definition set_battery_power_reserve (val : Z)
    : result (list TransparentRequest) :=
  let val := int val in
  if negb (bool_decide (4 ≤ val ≤ 100)) then
    Raise (ValueError
      ("Battery power reserve (" +:+ pretty val +:+ ") must be in [4-100]%"))
  else
    Return [WriteHoldingRegisterRequest
              RegisterMap.BATTERY_DISCHARGE_MIN_POWER_RESERVE (VInt val)].

(** [BatteryPauseMode] is an integer enumeration; the method compares and
    writes its ordinal. *)
Definition set_battery_pause_mode (val : Z)
    : result (list TransparentRequest) :=
  if negb (bool_decide (0 ≤ val ≤ 3)) then
    Raise (ValueError
      ("Battery pause mode (" +:+ pretty val +:+ ") must be in [0-3]"))
  else
    Return [WriteHoldingRegisterRequest RegisterMap.BATTERY_PAUSE_MODE (VInt val)].

(** The f-string naming a slot register: an optional DIS prefix, then
    CHARGE_SLOT_, the index and the suffix _START or _END. *)
Definition slot_attribute (discharge : bool) (idx : Z) (suffix : string)
    : string :=
  (if discharge then "DIS" else EmptyString) +:+ "CHARGE_SLOT_" +:+ pretty idx +:+ suffix.

Definition _set_charge_slot
    (discharge : bool) (idx : Z) (slot : option TimeSlot)
    : result (list TransparentRequest) :=
  hr_start ← getattr_RegisterMap (slot_attribute discharge idx "_START");
  hr_end ← getattr_RegisterMap (slot_attribute discharge idx "_END");
  match slot with
  | Some slot =>
      v_start ← int_of_str (strftime_HM (start slot));
      v_end ← int_of_str (strftime_HM (end_ slot));
      mret [WriteHoldingRegisterRequest hr_start (VInt v_start);
            WriteHoldingRegisterRequest hr_end (VInt v_end)]
  | None =>
      mret [WriteHoldingRegisterRequest hr_start (VInt 0);
            WriteHoldingRegisterRequest hr_end (VInt 0)]
  end.

Definition set_pause_slot_start (start : option time)
    : result (list TransparentRequest) :=
  match start with
  | Some start =>
      v ← int_of_str (strftime_HM start);
      mret [WriteHoldingRegisterRequest RegisterMap.BATTERY_PAUSE_SLOT_START
              (VInt v)]
  | None =>
      mret [WriteHoldingRegisterRequest RegisterMap.BATTERY_PAUSE_SLOT_START
              (VInt 0)]
  end.

Definition set_pause_slot_end (end_ : option time)
    : result (list TransparentRequest) :=
  match end_ with
  | Some end_ =>
      v ← int_of_str (strftime_HM end_);
      mret [WriteHoldingRegisterRequest RegisterMap.BATTERY_PAUSE_SLOT_END
              (VInt v)]
  | None =>
      mret [WriteHoldingRegisterRequest RegisterMap.BATTERY_PAUSE_SLOT_END
              (VInt 0)]
  end.

Definition set_charge_slot_1 (timeslot : TimeSlot) :=
  _set_charge_slot false 1 (Some timeslot).
Definition reset_charge_slot_1 := _set_charge_slot false 1 None.
Definition set_charge_slot_2 (timeslot : TimeSlot) :=
  _set_charge_slot false 2 (Some timeslot).
Definition reset_charge_slot_2 := _set_charge_slot false 2 None.
Definition set_discharge_slot_1 (timeslot : TimeSlot) :=
  _set_charge_slot true 1 (Some timeslot).
Definition reset_discharge_slot_1 := _set_charge_slot true 1 None.
Definition set_discharge_slot_2 (timeslot : TimeSlot) :=
  _set_charge_slot true 2 (Some timeslot).
Definition reset_discharge_slot_2 := _set_charge_slot true 2 None.

Definition set_system_date_time (dt : datetime) : list TransparentRequest :=
  [WriteHoldingRegisterRequest RegisterMap.SYSTEM_TIME_YEAR (VInt (year dt - 2000));
   WriteHoldingRegisterRequest RegisterMap.SYSTEM_TIME_MONTH (VInt (month dt));
   WriteHoldingRegisterRequest RegisterMap.SYSTEM_TIME_DAY (VInt (day dt));
   WriteHoldingRegisterRequest RegisterMap.SYSTEM_TIME_HOUR (VInt (hour dt));
   WriteHoldingRegisterRequest RegisterMap.SYSTEM_TIME_MINUTE (VInt (minute dt));
   WriteHoldingRegisterRequest RegisterMap.SYSTEM_TIME_SECOND (VInt (second dt))].

Definition set_mode_dynamic : result (list TransparentRequest) :=
  r110 ← set_battery_soc_reserve 4;
  mret (set_discharge_mode_to_match_demand ++ r110 ++ set_enable_discharge false).

(** Modelled from the spec: [TimeSlot.from_repr(1600, 700)], the default of
    [discharge_slot_1], is built by a class that is not among the sources;
    §4.4 gives the default as 16:00 to 07:00. *)
Definition default_discharge_slot_1 : TimeSlot :=
  {| start := {| t_hour := 16; t_minute := 0; t_second := 0 |};
     end_ := {| t_hour := 7; t_minute := 0; t_second := 0 |} |}.

(** [ret] is the local list each [ret.extend(...)] grows. *)
Definition set_mode_storage
    (discharge_slot_1 : TimeSlot) (discharge_slot_2 : option TimeSlot)
    (discharge_for_export : bool) : result (list TransparentRequest) :=
  let ret :=
    if discharge_for_export then set_discharge_mode_max_power
    else set_discharge_mode_to_match_demand in
  r110 ← set_battery_soc_reserve 100;
  let ret := ret ++ r110 in
  let ret := ret ++ set_enable_discharge true in
  slot_1 ← set_discharge_slot_1 discharge_slot_1;
  let ret := ret ++ slot_1 in
  match discharge_slot_2 with
  | Some discharge_slot_2 =>
      slot_2 ← set_discharge_slot_2 discharge_slot_2;
      mret (ret ++ slot_2)
  | None =>
      slot_2 ← reset_discharge_slot_2;
      mret (ret ++ slot_2)
  end.

End CommandBuilder.

(** ** Looking a method up on the class and on an instance

    Every [def] of the class body that takes no [self] sits under
    [@staticmethod], except [set_shallow_charge], which carries
    [@deprecated] alone. Python hands a static method its arguments as they
    are, whether it was reached through the class or through an instance; a
    plain function reached through an instance is bound, and receives the
    instance as its first positional argument. *)

Inductive argument :=
| AInt (z : Z)
| ABool (b : bool)
| AInstance (self : CommandBuilder.t).

(** [int(val)] on whatever the call site passed. *)
Definition int_of_argument (a : argument) : result Z :=
  match a with
  | AInt z => Return z
  | ABool b => Return (Z.b2z b)
  | AInstance _ =>
      Raise (TypeError
        "int() argument must be a string, a bytes-like object or a real number, not 'CommandBuilder'")
  end.

Inductive decorator :=
| staticmethod
| plain_function.

(** A [def name(val)] of the class body: its decorator and its body. *)
Record method := {
  name : string;
  decorated : decorator;
  body : argument → result (list TransparentRequest)
}.

(** Applying a one-parameter function to positional arguments. *)
Definition call (m : method) (args : list argument)
    : result (list TransparentRequest) :=
  match args with
  | [val] => body m val
  | [] =>
      Raise (TypeError
        (name m +:+ "() missing 1 required positional argument: 'val'"))
  | _ =>
      Raise (TypeError
        (name m +:+ "() takes 1 positional argument but "
           +:+ pretty (length args) +:+ " were given"))
  end.

(** [CommandBuilder.name(args)]. *)
Definition call_on_class (m : method) (args : list argument) :=
  call m args.

(** [builder.name(args)]. *)
Definition call_on_instance
    (self : CommandBuilder.t) (m : method) (args : list argument) :=
  match decorated m with
  | staticmethod => call m args
  | plain_function => call m (AInstance self :: args)
  end.

Definition method_set_battery_soc_reserve : method :=
  {| name := "CommandBuilder.set_battery_soc_reserve";
     decorated := staticmethod;
     body := λ val,
       val ← int_of_argument val; CommandBuilder.set_battery_soc_reserve val |}.

Definition method_set_shallow_charge : method :=
  {| name := "CommandBuilder.set_shallow_charge";
     decorated := plain_function;
     body := λ val,
       val ← int_of_argument val; CommandBuilder.set_shallow_charge val |}.

(** ** The operations of the class, as one type *)

Inductive operation :=
| Refresh_additional_holding_registers (base_register : Z)
| Refresh_plant_data (complete : bool) (number_batteries max_batteries : Z)
    (additional_holding_registers : option (list Z))
| Disable_charge_target
| Set_charge_target (target_soc : Z)
| Set_enable_charge (enabled : bool)
| Set_enable_charge_target (enabled : bool)
| Set_enable_discharge (enabled : bool)
| Set_inverter_reboot
| Set_calibrate_battery_soc
| Enable_charge
| Disable_charge
| Enable_discharge
| Disable_discharge
| Set_discharge_mode_max_power
| Set_discharge_mode_to_match_demand
| Set_shallow_charge (val : Z)
| Set_battery_soc_reserve (val : Z)
| Set_battery_charge_limit (val : Z)
| Set_battery_discharge_limit (val : Z)
| Set_battery_power_reserve (val : Z)
| Set_battery_pause_mode (val : Z)
| Set_charge_slot (discharge : bool) (idx : Z) (slot : option TimeSlot)
| Set_pause_slot_start (start : option time)
| Set_pause_slot_end (end_ : option time)
| Set_charge_slot_1 (timeslot : TimeSlot)
| Reset_charge_slot_1
| Set_charge_slot_2 (timeslot : TimeSlot)
| Reset_charge_slot_2
| Set_discharge_slot_1 (timeslot : TimeSlot)
| Reset_discharge_slot_1
| Set_discharge_slot_2 (timeslot : TimeSlot)
| Reset_discharge_slot_2
| Set_system_date_time (dt : datetime)
| Set_mode_dynamic
| Set_mode_storage (discharge_slot_1 : TimeSlot)
    (discharge_slot_2 : option TimeSlot) (discharge_for_export : bool).

Definition run (self : CommandBuilder.t) (op : operation)
    : result (list TransparentRequest) :=
  match op with
  | Refresh_additional_holding_registers base_register =>
      Return (CommandBuilder.refresh_additional_holding_registers self base_register)
  | Refresh_plant_data complete number_batteries max_batteries additional =>
      Return (CommandBuilder.refresh_plant_data self complete number_batteries
                max_batteries additional)
  | Disable_charge_target => Return CommandBuilder.disable_charge_target
  | Set_charge_target target_soc => CommandBuilder.set_charge_target target_soc
  | Set_enable_charge enabled => Return (CommandBuilder.set_enable_charge enabled)
  | Set_enable_charge_target enabled =>
      Return (CommandBuilder.set_enable_charge_target enabled)
  | Set_enable_discharge enabled =>
      Return (CommandBuilder.set_enable_discharge enabled)
  | Set_inverter_reboot => Return CommandBuilder.set_inverter_reboot
  | Set_calibrate_battery_soc => Return CommandBuilder.set_calibrate_battery_soc
  | Enable_charge => Return CommandBuilder.enable_charge
  | Disable_charge => Return CommandBuilder.disable_charge
  | Enable_discharge => Return CommandBuilder.enable_discharge
  | Disable_discharge => Return CommandBuilder.disable_discharge
  | Set_discharge_mode_max_power =>
      Return CommandBuilder.set_discharge_mode_max_power
  | Set_discharge_mode_to_match_demand =>
      Return CommandBuilder.set_discharge_mode_to_match_demand
  | Set_shallow_charge val => CommandBuilder.set_shallow_charge val
  | Set_battery_soc_reserve val => CommandBuilder.set_battery_soc_reserve val
  | Set_battery_charge_limit val => CommandBuilder.set_battery_charge_limit val
  | Set_battery_discharge_limit val =>
      CommandBuilder.set_battery_discharge_limit val
  | Set_battery_power_reserve val => CommandBuilder.set_battery_power_reserve val
  | Set_battery_pause_mode val => CommandBuilder.set_battery_pause_mode val
  | Set_charge_slot discharge idx slot =>
      CommandBuilder._set_charge_slot discharge idx slot
  | Set_pause_slot_start start => CommandBuilder.set_pause_slot_start start
  | Set_pause_slot_end end_ => CommandBuilder.set_pause_slot_end end_
  | Set_charge_slot_1 timeslot => CommandBuilder.set_charge_slot_1 timeslot
  | Reset_charge_slot_1 => CommandBuilder.reset_charge_slot_1
  | Set_charge_slot_2 timeslot => CommandBuilder.set_charge_slot_2 timeslot
  | Reset_charge_slot_2 => CommandBuilder.reset_charge_slot_2
  | Set_discharge_slot_1 timeslot => CommandBuilder.set_discharge_slot_1 timeslot
  | Reset_discharge_slot_1 => CommandBuilder.reset_discharge_slot_1
  | Set_discharge_slot_2 timeslot => CommandBuilder.set_discharge_slot_2 timeslot
  | Reset_discharge_slot_2 => CommandBuilder.reset_discharge_slot_2
  | Set_system_date_time dt => Return (CommandBuilder.set_system_date_time dt)
  | Set_mode_dynamic => CommandBuilder.set_mode_dynamic
  | Set_mode_storage discharge_slot_1 discharge_slot_2 discharge_for_export =>
      CommandBuilder.set_mode_storage discharge_slot_1 discharge_slot_2
        discharge_for_export
  end.

(** The address a request refers to: the register of a write, the base
    register of a read. *)
Definition address (r : TransparentRequest) : Z :=
  match r with
  | ReadHoldingRegistersRequest _ base_register _ => base_register
  | ReadInputRegistersRequest _ base_register _ => base_register
  | WriteHoldingRegisterRequest register _ => register
  end.

Definition is_write (r : TransparentRequest) : bool :=
  match r with
  | WriteHoldingRegisterRequest _ _ => true
  | _ => false
  end.

(** The per-battery reads of a refresh plan: input reads of the block at 60. *)
Definition is_battery_read (r : TransparentRequest) : bool :=
  match r with
  | ReadInputRegistersRequest _ base_register _ => bool_decide (base_register = 60)
  | _ => false
  end.

(** [msg] contains [part]. *)
Definition mentions (part msg : string) : Prop :=
  ∃ before after, msg = before +:+ part +:+ after.

(** ** The settings table of the specification

    The percentage-style settings with the register and the inclusive
    range the specification declares for each (§4.3), next to the method
    that implements it. *)

Inductive percent_setting :=
| ChargeTarget
| SocReserve
| ChargeLimit
| DischargeLimit
| PowerReserve.

Definition declared_range (s : percent_setting) : Z * Z :=
  match s with
  | ChargeTarget => (4, 100)
  | SocReserve => (4, 100)
  | ChargeLimit => (0, 50)
  | DischargeLimit => (0, 50)
  | PowerReserve => (4, 100)
  end.

Definition declared_register (s : percent_setting) : Z :=
  match s with
  | ChargeTarget => RegisterMap.CHARGE_TARGET_SOC
  | SocReserve => RegisterMap.BATTERY_SOC_RESERVE
  | ChargeLimit => RegisterMap.BATTERY_CHARGE_LIMIT
  | DischargeLimit => RegisterMap.BATTERY_DISCHARGE_LIMIT
  | PowerReserve => RegisterMap.BATTERY_DISCHARGE_MIN_POWER_RESERVE
  end.

Definition setter (s : percent_setting) : Z → result (list TransparentRequest) :=
  match s with
  | ChargeTarget => CommandBuilder.set_charge_target
  | SocReserve => CommandBuilder.set_battery_soc_reserve
  | ChargeLimit => CommandBuilder.set_battery_charge_limit
  | DischargeLimit => CommandBuilder.set_battery_discharge_limit
  | PowerReserve => CommandBuilder.set_battery_power_reserve
  end.

(** The range as the error messages print it. *)
Definition range_text (lo_hi : Z * Z) : string :=
  "[" +:+ pretty lo_hi.1 +:+ "-" +:+ pretty lo_hi.2 +:+ "]".

(** The start and end registers of the four slots, as §4.3 pairs them. *)
Definition slot_registers (discharge : bool) (second : bool) : Z * Z :=
  match discharge, second with
  | false, false => (RegisterMap.CHARGE_SLOT_1_START, RegisterMap.CHARGE_SLOT_1_END)
  | false, true => (RegisterMap.CHARGE_SLOT_2_START, RegisterMap.CHARGE_SLOT_2_END)
  | true, false =>
      (RegisterMap.DISCHARGE_SLOT_1_START, RegisterMap.DISCHARGE_SLOT_1_END)
  | true, true =>
      (RegisterMap.DISCHARGE_SLOT_2_START, RegisterMap.DISCHARGE_SLOT_2_END)
  end.

(** §4.2: an hour and minute pair packed as [hour*100 + minute]. *)
Definition encode_clock (t : time) : Z := t_hour t * 100 + t_minute t.

(** ** Vocabulary of the statements *)

(** [v] lies in the inclusive range declared for [s]. *)
Definition in_declared_range (s : percent_setting) (v : Z) : Prop :=
  (declared_range s).1 ≤ v ≤ (declared_range s).2.

(** Every hour and minute pair of a day, checked by running the code. *)
Definition clock_table_ok : bool :=
  forallb (λ h,
    forallb (λ m,
      bool_decide (int_of_str (zero_pad2 h +:+ zero_pad2 m) = Return (h * 100 + m)))
      (seqZ 0 60))
    (seqZ 0 24).

(** The [idx] argument of the first and of the second slot. *)
Definition slot_index (second : bool) : Z := if second then 2 else 1.

(** The writes for the second discharge slot: the slot when one is given,
    the explicit clear otherwise. *)
Definition second_slot_writes (discharge_slot_2 : option TimeSlot)
    : list TransparentRequest :=
  match discharge_slot_2 with
  | Some slot =>
      [WriteHoldingRegisterRequest RegisterMap.DISCHARGE_SLOT_2_START
         (VInt (encode_clock (start slot)));
       WriteHoldingRegisterRequest RegisterMap.DISCHARGE_SLOT_2_END
         (VInt (encode_clock (end_ slot)))]
  | None =>
      [WriteHoldingRegisterRequest RegisterMap.DISCHARGE_SLOT_2_START (VInt 0);
       WriteHoldingRegisterRequest RegisterMap.DISCHARGE_SLOT_2_END (VInt 0)]
  end.

(** A secondary slot, when supplied, is a valid slot. *)
Definition valid_optional_slot (slot : option TimeSlot) : Prop :=
  ∀ s, slot = Some s → valid_slot s.

(** The five writes storage mode starts with, §4.4 steps (1) to (4). *)
Definition storage_head_writes
    (discharge_slot_1 : TimeSlot) (discharge_for_export : bool)
    : list TransparentRequest :=
  [WriteHoldingRegisterRequest RegisterMap.BATTERY_POWER_MODE
     (VInt (if discharge_for_export then 0 else 1));
   WriteHoldingRegisterRequest RegisterMap.BATTERY_SOC_RESERVE (VInt 100);
   WriteHoldingRegisterRequest RegisterMap.ENABLE_DISCHARGE (VBool true);
   WriteHoldingRegisterRequest RegisterMap.DISCHARGE_SLOT_1_START
     (VInt (encode_clock (start discharge_slot_1)));
   WriteHoldingRegisterRequest RegisterMap.DISCHARGE_SLOT_1_END
     (VInt (encode_clock (end_ discharge_slot_1)))].

(** The blocks of §4.5, in the words of the specification. *)
Definition primary_block (self : CommandBuilder.t) : list TransparentRequest :=
  [ReadInputRegistersRequest (CommandBuilder.main_slave_address self) 0 60].

Definition full_refresh_blocks (self : CommandBuilder.t)
    : list TransparentRequest :=
  [ReadHoldingRegistersRequest (CommandBuilder.main_slave_address self) 0 60;
   ReadHoldingRegistersRequest (CommandBuilder.main_slave_address self) 60 60;
   ReadInputRegistersRequest (CommandBuilder.main_slave_address self) 120 60].

Definition battery_blocks (count : Z) : list TransparentRequest :=
  (λ i, ReadInputRegistersRequest (0x32 + i) 60 60) <$> seqZ 0 count.

Definition extra_blocks (self : CommandBuilder.t) (extra : option (list Z))
    : list TransparentRequest :=
  (λ hr, ReadHoldingRegistersRequest (CommandBuilder.main_slave_address self) hr 60)
    <$> default [] extra.

(** The battery count the plan uses: the ceiling on a full refresh of a
    model that is specified and is not the all-in-one, the requested count
    otherwise. *)
Definition planned_batteries
    (model : option Model) (complete : bool) (number_batteries max_batteries : Z)
    : Z :=
  match model with
  | Some m =>
      if complete && bool_decide (m ≠ ALL_IN_ONE) then max_batteries
      else number_batteries
  | None => number_batteries
  end.

(** The two operations that plan reads. *)
Definition is_refresh (op : operation) : bool :=
  match op with
  | Refresh_additional_holding_registers _ | Refresh_plant_data _ _ _ _ => true
  | _ => false
  end.

(** A write goes to a declared register; a read comes from a refresh. *)
Definition request_accounted (op : operation) (r : TransparentRequest) : Prop :=
  match r with
  | WriteHoldingRegisterRequest register _ => register ∈ RegisterMap.addresses
  | _ => is_refresh op = true
  end.

(** ** Vocabulary of the further properties *)

(** The attribute names the class declares. *)
Definition declared_names : list string := RegisterMap.declarations.*1.

(** [strip_prefix p s] is [Some x] when [s] is [p] followed by [x]. *)
Fixpoint strip_prefix (p s : string) : option string :=
  match p, s with
  | EmptyString, _ => Some s
  | String a p, String b s => if decide (a = b) then strip_prefix p s else None
  | String _ _, EmptyString => None
  end.

(** [strip_suffix q s] is [Some x] when [s] is [x] followed by [q]. *)
Fixpoint strip_suffix (q s : string) : option string :=
  if decide (s = q) then Some EmptyString
  else match s with
       | EmptyString => None
       | String a s => String a <$> strip_suffix q s
       end.

(** The part of [s] between the prefix [p] and the suffix [q]. *)
Definition middle (p q s : string) : option string :=
  strip_prefix p s ≫= strip_suffix q.

(** Among the declared names, only the indices 1 and 2 fit between a slot
    prefix and a slot suffix. *)
Definition slot_names_ok (p q : string) : bool :=
  forallb (λ declared,
    match middle p q declared with
    | Some idx => bool_decide (idx ∈ ["1"; "2"]%string)
    | None => true
    end) declared_names.

(** Two clock times that agree on hour and minute. *)
Definition same_clock (t t' : time) : Prop :=
  t_hour t = t_hour t' ∧ t_minute t = t_minute t'.

(** Midnight, whatever the seconds. *)
Definition is_midnight (t : time) : Prop := t_hour t = 0 ∧ t_minute t = 0.

(** The range the [datetime] constructor enforces. *)
Definition valid_datetime (dt : datetime) : Prop :=
  1 ≤ year dt ≤ 9999 ∧ 1 ≤ month dt ≤ 12 ∧ 1 ≤ day dt ≤ 31
  ∧ 0 ≤ hour dt < 24 ∧ 0 ≤ minute dt < 60 ∧ 0 ≤ second dt < 60.

Definition valid_optional_time (t : option time) : Prop :=
  ∀ x, t = Some x → valid_time x.

(** The clock times and dates an operation is given are ones Python can
    construct. *)
Definition valid_input (op : operation) : Prop :=
  match op with
  | Set_charge_slot _ _ slot => valid_optional_slot slot
  | Set_pause_slot_start t | Set_pause_slot_end t => valid_optional_time t
  | Set_charge_slot_1 s | Set_charge_slot_2 s
  | Set_discharge_slot_1 s | Set_discharge_slot_2 s => valid_slot s
  | Set_system_date_time dt => valid_datetime dt
  | Set_mode_storage s1 s2 _ => valid_slot s1 ∧ valid_optional_slot s2
  | _ => True
  end.

(** How many writes each operation that writes returns. *)
Definition request_count (op : operation) : nat :=
  match op with
  | Refresh_additional_holding_registers _ | Refresh_plant_data _ _ _ _ => 0
  | Disable_charge_target => 2
  | Set_charge_slot _ _ _
  | Set_charge_slot_1 _ | Reset_charge_slot_1
  | Set_charge_slot_2 _ | Reset_charge_slot_2
  | Set_discharge_slot_1 _ | Reset_discharge_slot_1
  | Set_discharge_slot_2 _ | Reset_discharge_slot_2 => 2
  | Set_system_date_time _ => 6
  | Set_mode_dynamic => 3
  | Set_mode_storage _ _ _ => 7
  | _ => 1
  end.

(** What a request of a refresh plan may be, for a plan over [batteries]
    batteries: a 60-register read, from the primary slave address for the
    fixed and the extra blocks, from 0x32 upwards for the battery blocks. *)
Definition planned_read (self : CommandBuilder.t) (batteries : Z)
    (r : TransparentRequest) : Prop :=
  match r with
  | ReadHoldingRegistersRequest slave_address _ register_count =>
      slave_address = CommandBuilder.main_slave_address self
      ∧ register_count = 60
  | ReadInputRegistersRequest slave_address base_register register_count =>
      register_count = 60
      ∧ ((slave_address = CommandBuilder.main_slave_address self
          ∧ (base_register = 0 ∨ base_register = 120))
         ∨ (base_register = 60 ∧ 0x32 ≤ slave_address < 0x32 + batteries))
  | WriteHoldingRegisterRequest _ _ => False
  end.

(** The values the operations write stay within a register: between 0 and
    2359, the largest packed clock time, but for the year register, which
    holds the offset of the year from 2000. *)
Definition value_in_bounds (op : operation) (register : Z) (v : value) : Prop :=
  0 ≤ value_as_int v ≤ 2359
  ∨ (register = RegisterMap.SYSTEM_TIME_YEAR
     ∧ ∃ dt, op = Set_system_date_time dt ∧ value_as_int v = year dt - 2000).

(** What a request of a writing operation is: a write, to a register other
    than [ACTIVE_POWER_RATE], of a value within bounds when the operation's
    clock times and dates are ones Python can construct. *)
Definition write_shape (op : operation) (r : TransparentRequest) : Prop :=
  match r with
  | WriteHoldingRegisterRequest register v =>
      register ≠ RegisterMap.ACTIVE_POWER_RATE
      ∧ (valid_input op → value_in_bounds op register v)
  | _ => False
  end.

(** The slave address a read is sent to; a write carries none. *)
Definition request_slave (r : TransparentRequest) : option Z :=
  match r with
  | ReadHoldingRegistersRequest slave_address _ _ => Some slave_address
  | ReadInputRegistersRequest slave_address _ _ => Some slave_address
  | WriteHoldingRegisterRequest _ _ => None
  end.

(** * Properties *)

(** ** Strings and messages *)

Lemma append_assoc (a b c : string) : (a +:+ b) +:+ c = a +:+ b +:+ c.
Proof.
  induction a as [|x a IH]; [done|].
  change (String x ((a +:+ b) +:+ c) = String x (a +:+ b +:+ c)).
  by rewrite IH.
Qed.

Lemma mentions_inside (before part after : string) :
  mentions part (before +:+ part +:+ after).
Proof. by exists before, after. Qed.

Lemma mentions_later (a b part msg : string) :
  mentions part msg → mentions part (a +:+ b +:+ msg).
Proof.
  intros (before & after & ->).
  exists (a +:+ b +:+ before), after.
  by rewrite !append_assoc.
Qed.

(** ** Range checks *)

Section range_check.
Context {A : Type} (lo hi v : Z) (e : exception) (a : A).

Lemma range_check_inside :
  lo ≤ v ≤ hi →
  (if negb (bool_decide (lo ≤ v ≤ hi)) then Raise e else Return a) = Return a.
Proof. intros H. by rewrite bool_decide_eq_true_2. Qed.

Lemma range_check_outside :
  ¬ (lo ≤ v ≤ hi) →
  (if negb (bool_decide (lo ≤ v ≤ hi)) then Raise e else Return a) = Raise e.
Proof. intros H. by rewrite bool_decide_eq_false_2. Qed.

End range_check.

Lemma setter_accepts (s : percent_setting) (v : Z) :
  in_declared_range s v →
  setter s v = Return [WriteHoldingRegisterRequest (declared_register s) (VInt v)].
Proof.
  destruct s; unfold in_declared_range; cbn [declared_range fst snd setter];
    intros H; by apply range_check_inside.
Qed.

Lemma setter_rejects (s : percent_setting) (v : Z) :
  ¬ in_declared_range s v →
  ∃ msg, setter s v = Raise (ValueError msg)
         ∧ mentions (pretty v) msg
         ∧ mentions (range_text (declared_range s)) msg.
Proof.
  destruct s; unfold in_declared_range; cbn [declared_range fst snd setter];
    intros H; eexists; (split; [by apply range_check_outside|]);
    unfold CommandBuilder.int; (split; [apply mentions_inside|]);
    apply mentions_later;
    first [by exists ") must be in "%string, "%"%string
          |by exists "%) is not in "%string, "%"%string].
Qed.

(** The setters on concrete values. *)
Example charge_target_below_range :
  CommandBuilder.set_charge_target 3 =
    Raise (ValueError "Charge Target SOC (3) must be in [4-100]%").
Proof. reflexivity. Qed.

Example discharge_limit_above_range :
  CommandBuilder.set_battery_discharge_limit 51 =
    Raise (ValueError "Specified Discharge Limit (51%) is not in [0-50]%").
Proof. reflexivity. Qed.

Example power_reserve_at_bound :
  CommandBuilder.set_battery_power_reserve 100 =
    Return [WriteHoldingRegisterRequest 114 (VInt 100)].
Proof. reflexivity. Qed.

Example pause_mode_negative :
  CommandBuilder.set_battery_pause_mode (-1) =
    Raise (ValueError "Battery pause mode (-1) must be in [0-3]").
Proof. reflexivity. Qed.

(** ** Percentage settings *)

(** C1: for each percentage-style setting (charge target 4-100, SOC reserve
    4-100, charge limit 0-50, discharge limit 0-50, power reserve 4-100), a
    value inside the declared inclusive range produces exactly one write of
    that value to the setting's register; a value outside it, and so the
    lower bound minus one and the upper bound plus one, raises the
    validation error, whose message prints the offending value and the
    valid range, and no request is produced. *)
Theorem percentage_settings_validated (s : percent_setting) (v : Z) :
  (in_declared_range s v →
     setter s v =
       Return [WriteHoldingRegisterRequest (declared_register s) (VInt v)])
  ∧ (¬ in_declared_range s v →
     ∃ msg, setter s v = Raise (ValueError msg)
            ∧ mentions (pretty v) msg
            ∧ mentions (range_text (declared_range s)) msg)
  ∧ (∃ msg, setter s ((declared_range s).1 - 1) = Raise (ValueError msg))
  ∧ (∃ msg, setter s ((declared_range s).2 + 1) = Raise (ValueError msg)).
Proof.
  split; [apply setter_accepts|].
  split; [apply setter_rejects|].
  split.
  - destruct (setter_rejects s ((declared_range s).1 - 1)) as (msg & H & _).
    + unfold in_declared_range. lia.
    + by exists msg.
  - destruct (setter_rejects s ((declared_range s).2 + 1)) as (msg & H & _).
    + unfold in_declared_range. lia.
    + by exists msg.
Qed.

Lemma percentage_settings_validated_witness :
  CommandBuilder.set_charge_target 80 =
    Return [WriteHoldingRegisterRequest 116 (VInt 80)]
  ∧ ∃ msg, CommandBuilder.set_battery_charge_limit 51 = Raise (ValueError msg)
           ∧ mentions "51" msg ∧ mentions "[0-50]" msg.
Proof.
  split.
  - apply (percentage_settings_validated ChargeTarget 80).
    unfold in_declared_range. simpl. lia.
  - apply (percentage_settings_validated ChargeLimit 51).
    unfold in_declared_range. simpl. lia.
Defined.

(** ** Battery pause mode *)

Lemma pause_mode_ordinal (v : Z) : 0 ≤ v ≤ 3 ↔ v ∈ [0; 1; 2; 3].
Proof.
  rewrite !elem_of_cons, elem_of_nil. lia.
Qed.

(** C8: [set_battery_pause_mode] accepts exactly the ordinals 0, 1, 2 and 3,
    each giving a single write of that ordinal to the battery-pause-mode
    register, and raises the validation error, with no request, for every
    other value, -1 and 4 among them. *)
Theorem battery_pause_mode_ordinals (v : Z) :
  (v ∈ [0; 1; 2; 3] →
     CommandBuilder.set_battery_pause_mode v =
       Return [WriteHoldingRegisterRequest RegisterMap.BATTERY_PAUSE_MODE (VInt v)])
  ∧ (v ∉ [0; 1; 2; 3] →
     ∃ msg, CommandBuilder.set_battery_pause_mode v = Raise (ValueError msg)
            ∧ mentions (pretty v) msg)
  ∧ (∃ msg, CommandBuilder.set_battery_pause_mode (-1) = Raise (ValueError msg))
  ∧ (∃ msg, CommandBuilder.set_battery_pause_mode 4 = Raise (ValueError msg)).
Proof.
  split; [|split].
  - intros H%pause_mode_ordinal. by apply range_check_inside.
  - intros H. eexists. split.
    + apply range_check_outside. by rewrite pause_mode_ordinal.
    + apply mentions_inside.
  - split; by eexists.
Qed.

Lemma battery_pause_mode_ordinals_witness :
  CommandBuilder.set_battery_pause_mode 2 =
    Return [WriteHoldingRegisterRequest 318 (VInt 2)]
  ∧ ∃ msg, CommandBuilder.set_battery_pause_mode 7 = Raise (ValueError msg)
           ∧ mentions "7" msg.
Proof.
  split.
  - apply (battery_pause_mode_ordinals 2). apply pause_mode_ordinal. lia.
  - apply (battery_pause_mode_ordinals 7). rewrite <- pause_mode_ordinal. lia.
Defined.

(** ** System clock *)

(** C7: [set_system_date_time] produces exactly six writes, to the year,
    month, day, hour, minute and second registers in that order; the year is
    written as its offset from 2000 and the other five fields unchanged.
    2024-03-15 09:30:45 gives the values 24, 3, 15, 9, 30, 45. *)
Theorem system_date_time_six_writes (dt : datetime) :
  CommandBuilder.set_system_date_time dt =
    [WriteHoldingRegisterRequest 35 (VInt (year dt - 2000));
     WriteHoldingRegisterRequest 36 (VInt (month dt));
     WriteHoldingRegisterRequest 37 (VInt (day dt));
     WriteHoldingRegisterRequest 38 (VInt (hour dt));
     WriteHoldingRegisterRequest 39 (VInt (minute dt));
     WriteHoldingRegisterRequest 40 (VInt (second dt))]
  ∧ address <$> CommandBuilder.set_system_date_time dt =
      [RegisterMap.SYSTEM_TIME_YEAR; RegisterMap.SYSTEM_TIME_MONTH;
       RegisterMap.SYSTEM_TIME_DAY; RegisterMap.SYSTEM_TIME_HOUR;
       RegisterMap.SYSTEM_TIME_MINUTE; RegisterMap.SYSTEM_TIME_SECOND]
  ∧ length (CommandBuilder.set_system_date_time dt) = 6%nat
  ∧ CommandBuilder.set_system_date_time
      {| year := 2024; month := 3; day := 15;
         hour := 9; minute := 30; second := 45 |} =
    [WriteHoldingRegisterRequest 35 (VInt 24);
     WriteHoldingRegisterRequest 36 (VInt 3);
     WriteHoldingRegisterRequest 37 (VInt 15);
     WriteHoldingRegisterRequest 38 (VInt 9);
     WriteHoldingRegisterRequest 39 (VInt 30);
     WriteHoldingRegisterRequest 40 (VInt 45)].
Proof. repeat split. Qed.

(** ** Dynamic mode *)

(** C4: [set_mode_dynamic] returns exactly three writes, in order: the
    discharge-mode selector set to 1, the SOC reserve set to 4, the
    discharge enable set to false. It takes no argument and reads no state,
    so two invocations, through whichever builders, return the same
    sequence. *)
Theorem mode_dynamic_fixed_sequence (self self' : CommandBuilder.t) :
  CommandBuilder.set_mode_dynamic =
    Return [WriteHoldingRegisterRequest RegisterMap.BATTERY_POWER_MODE (VInt 1);
            WriteHoldingRegisterRequest RegisterMap.BATTERY_SOC_RESERVE (VInt 4);
            WriteHoldingRegisterRequest RegisterMap.ENABLE_DISCHARGE (VBool false)]
  ∧ run self Set_mode_dynamic = run self' Set_mode_dynamic
  ∧ (address <$> [WriteHoldingRegisterRequest RegisterMap.BATTERY_POWER_MODE (VInt 1);
                  WriteHoldingRegisterRequest RegisterMap.BATTERY_SOC_RESERVE (VInt 4);
                  WriteHoldingRegisterRequest RegisterMap.ENABLE_DISCHARGE
                    (VBool false)] = [27; 110; 59])
  ∧ value_as_int <$> [VInt 1; VInt 4; VBool false] = [1; 4; 0].
Proof. by repeat split. Qed.

(** ** Clock times and slots *)

Lemma clock_table_checked : clock_table_ok = true.
Proof. vm_compute. reflexivity. Qed.

(** [int(t.strftime("%H%M"))] is the decimal packing of §4.2. *)
Lemma strftime_HM_packs (t : time) :
  valid_time t → int_of_str (strftime_HM t) = Return (encode_clock t).
Proof.
  intros (Hh & Hm & _). destruct t as [h m s]. simpl in *.
  unfold strftime_HM, encode_clock. simpl.
  pose proof clock_table_checked as Hok. unfold clock_table_ok in Hok.
  rewrite forallb_forall in Hok.
  assert (In h (seqZ 0 24)) as Hin by (apply list_elem_of_In, elem_of_seqZ; lia).
  apply Hok in Hin. rewrite forallb_forall in Hin.
  eapply bool_decide_eq_true_1, Hin, list_elem_of_In, elem_of_seqZ. lia.
Qed.

Lemma slot_attributes_resolve (discharge second : bool) :
  getattr_RegisterMap (CommandBuilder.slot_attribute discharge (slot_index second) "_START")
    = Return (slot_registers discharge second).1
  ∧ getattr_RegisterMap (CommandBuilder.slot_attribute discharge (slot_index second) "_END")
    = Return (slot_registers discharge second).2.
Proof. by destruct discharge, second. Qed.

Lemma set_charge_slot_some (discharge second : bool) (slot : TimeSlot) :
  valid_slot slot →
  CommandBuilder._set_charge_slot discharge (slot_index second) (Some slot) =
    Return [WriteHoldingRegisterRequest (slot_registers discharge second).1
              (VInt (encode_clock (start slot)));
            WriteHoldingRegisterRequest (slot_registers discharge second).2
              (VInt (encode_clock (end_ slot)))].
Proof.
  intros [Hs He]. unfold CommandBuilder._set_charge_slot.
  destruct (slot_attributes_resolve discharge second) as [-> ->].
  cbn [mbind result_bind].
  by rewrite (strftime_HM_packs _ Hs), (strftime_HM_packs _ He).
Qed.

Lemma set_charge_slot_none (discharge second : bool) :
  CommandBuilder._set_charge_slot discharge (slot_index second) None =
    Return [WriteHoldingRegisterRequest (slot_registers discharge second).1 (VInt 0);
            WriteHoldingRegisterRequest (slot_registers discharge second).2 (VInt 0)].
Proof. by destruct discharge, second. Qed.

(** Slots on concrete values: 07:05 packs to 705, and only the indices 1
    and 2 name registers. *)
Example charge_slot_2_evening :
  CommandBuilder.set_charge_slot_2
    {| start := {| t_hour := 23; t_minute := 30; t_second := 0 |};
       end_ := {| t_hour := 7; t_minute := 5; t_second := 59 |} |} =
    Return [WriteHoldingRegisterRequest 31 (VInt 2330);
            WriteHoldingRegisterRequest 32 (VInt 705)].
Proof. reflexivity. Qed.

Example discharge_slot_3_unknown :
  CommandBuilder._set_charge_slot true 3 None =
    Raise (AttributeError
      "type object 'RegisterMap' has no attribute 'DISCHARGE_SLOT_3_START'").
Proof. reflexivity. Qed.

Example pause_slot_start_midnight :
  CommandBuilder.set_pause_slot_start
    (Some {| t_hour := 0; t_minute := 0; t_second := 0 |}) =
    Return [WriteHoldingRegisterRequest 319 (VInt 0)].
Proof. reflexivity. Qed.

(** C6: for a slot running from h1:m1 to h2:m2, each of the four
    slot-setting operations emits exactly two writes, h1*100+m1 to its start
    register and h2*100+m2 to its end register, so that 16:00 to 07:00 is
    written as 1600 and 700; with no slot, it emits exactly two writes of 0
    to the same two registers. *)
Theorem slot_writes_packed_times (slot : TimeSlot) :
  valid_slot slot →
  let v_start := VInt (t_hour (start slot) * 100 + t_minute (start slot)) in
  let v_end := VInt (t_hour (end_ slot) * 100 + t_minute (end_ slot)) in
  CommandBuilder.set_charge_slot_1 slot =
    Return [WriteHoldingRegisterRequest RegisterMap.CHARGE_SLOT_1_START v_start;
            WriteHoldingRegisterRequest RegisterMap.CHARGE_SLOT_1_END v_end]
  ∧ CommandBuilder.set_charge_slot_2 slot =
    Return [WriteHoldingRegisterRequest RegisterMap.CHARGE_SLOT_2_START v_start;
            WriteHoldingRegisterRequest RegisterMap.CHARGE_SLOT_2_END v_end]
  ∧ CommandBuilder.set_discharge_slot_1 slot =
    Return [WriteHoldingRegisterRequest RegisterMap.DISCHARGE_SLOT_1_START v_start;
            WriteHoldingRegisterRequest RegisterMap.DISCHARGE_SLOT_1_END v_end]
  ∧ CommandBuilder.set_discharge_slot_2 slot =
    Return [WriteHoldingRegisterRequest RegisterMap.DISCHARGE_SLOT_2_START v_start;
            WriteHoldingRegisterRequest RegisterMap.DISCHARGE_SLOT_2_END v_end]
  ∧ CommandBuilder.reset_charge_slot_1 =
    Return [WriteHoldingRegisterRequest RegisterMap.CHARGE_SLOT_1_START (VInt 0);
            WriteHoldingRegisterRequest RegisterMap.CHARGE_SLOT_1_END (VInt 0)]
  ∧ CommandBuilder.reset_charge_slot_2 =
    Return [WriteHoldingRegisterRequest RegisterMap.CHARGE_SLOT_2_START (VInt 0);
            WriteHoldingRegisterRequest RegisterMap.CHARGE_SLOT_2_END (VInt 0)]
  ∧ CommandBuilder.reset_discharge_slot_1 =
    Return [WriteHoldingRegisterRequest RegisterMap.DISCHARGE_SLOT_1_START (VInt 0);
            WriteHoldingRegisterRequest RegisterMap.DISCHARGE_SLOT_1_END (VInt 0)]
  ∧ CommandBuilder.reset_discharge_slot_2 =
    Return [WriteHoldingRegisterRequest RegisterMap.DISCHARGE_SLOT_2_START (VInt 0);
            WriteHoldingRegisterRequest RegisterMap.DISCHARGE_SLOT_2_END (VInt 0)].
Proof.
  intros Hv. cbn zeta.
  repeat split;
    first [ reflexivity
          | apply (set_charge_slot_some false false _ Hv)
          | apply (set_charge_slot_some false true _ Hv)
          | apply (set_charge_slot_some true false _ Hv)
          | apply (set_charge_slot_some true true _ Hv) ].
Qed.

Lemma slot_writes_packed_times_witness :
  CommandBuilder.set_discharge_slot_1 CommandBuilder.default_discharge_slot_1 =
    Return [WriteHoldingRegisterRequest 56 (VInt 1600);
            WriteHoldingRegisterRequest 57 (VInt 700)].
Proof.
  apply (slot_writes_packed_times CommandBuilder.default_discharge_slot_1).
  unfold valid_slot, valid_time. simpl. lia.
Defined.

(** ** Storage mode *)

Lemma set_discharge_slot_1_writes (slot : TimeSlot) :
  valid_slot slot →
  CommandBuilder.set_discharge_slot_1 slot =
    Return [WriteHoldingRegisterRequest RegisterMap.DISCHARGE_SLOT_1_START
              (VInt (encode_clock (start slot)));
            WriteHoldingRegisterRequest RegisterMap.DISCHARGE_SLOT_1_END
              (VInt (encode_clock (end_ slot)))].
Proof. apply (set_charge_slot_some true false). Qed.

Lemma set_discharge_slot_2_writes (slot : TimeSlot) :
  valid_slot slot →
  CommandBuilder.set_discharge_slot_2 slot = Return (second_slot_writes (Some slot)).
Proof. apply (set_charge_slot_some true true). Qed.

Lemma mode_storage_unfolded
    (discharge_slot_1 : TimeSlot) (discharge_slot_2 : option TimeSlot)
    (discharge_for_export : bool) :
  valid_slot discharge_slot_1 →
  valid_optional_slot discharge_slot_2 →
  CommandBuilder.set_mode_storage discharge_slot_1 discharge_slot_2
      discharge_for_export =
    Return (storage_head_writes discharge_slot_1 discharge_for_export
            ++ second_slot_writes discharge_slot_2).
Proof.
  intros H1 H2.
  unfold CommandBuilder.set_mode_storage.
  rewrite (set_discharge_slot_1_writes _ H1).
  destruct discharge_slot_2 as [slot_2|].
  - rewrite (set_discharge_slot_2_writes _ (H2 _ eq_refl)).
    by destruct discharge_for_export.
  - by destruct discharge_for_export.
Qed.

(** C3: [set_mode_storage] returns, in this order and with nothing in
    between: the discharge-mode write (0 when discharging for export, 1
    otherwise), the SOC reserve write of 100, the write enabling discharge,
    the two writes of discharge slot 1 for the primary slot, and the two
    writes of discharge slot 2, carrying the secondary slot when one is
    supplied and 0, 0 when none is. *)
Theorem mode_storage_sequence
    (discharge_slot_1 : TimeSlot) (discharge_slot_2 : option TimeSlot)
    (discharge_for_export : bool) :
  valid_slot discharge_slot_1 →
  valid_optional_slot discharge_slot_2 →
  CommandBuilder.set_mode_storage discharge_slot_1 discharge_slot_2
      discharge_for_export =
    Return
      ([WriteHoldingRegisterRequest RegisterMap.BATTERY_POWER_MODE
          (VInt (if discharge_for_export then 0 else 1));
        WriteHoldingRegisterRequest RegisterMap.BATTERY_SOC_RESERVE (VInt 100);
        WriteHoldingRegisterRequest RegisterMap.ENABLE_DISCHARGE (VBool true);
        WriteHoldingRegisterRequest RegisterMap.DISCHARGE_SLOT_1_START
          (VInt (t_hour (start discharge_slot_1) * 100
                 + t_minute (start discharge_slot_1)));
        WriteHoldingRegisterRequest RegisterMap.DISCHARGE_SLOT_1_END
          (VInt (t_hour (end_ discharge_slot_1) * 100
                 + t_minute (end_ discharge_slot_1)))]
       ++ match discharge_slot_2 with
          | Some slot =>
              [WriteHoldingRegisterRequest RegisterMap.DISCHARGE_SLOT_2_START
                 (VInt (t_hour (start slot) * 100 + t_minute (start slot)));
               WriteHoldingRegisterRequest RegisterMap.DISCHARGE_SLOT_2_END
                 (VInt (t_hour (end_ slot) * 100 + t_minute (end_ slot)))]
          | None =>
              [WriteHoldingRegisterRequest RegisterMap.DISCHARGE_SLOT_2_START
                 (VInt 0);
               WriteHoldingRegisterRequest RegisterMap.DISCHARGE_SLOT_2_END
                 (VInt 0)]
          end).
Proof.
  intros H1 H2. by rewrite mode_storage_unfolded.
Qed.

Lemma mode_storage_sequence_witness :
  CommandBuilder.set_mode_storage CommandBuilder.default_discharge_slot_1 None true =
    Return [WriteHoldingRegisterRequest 27 (VInt 0);
            WriteHoldingRegisterRequest 110 (VInt 100);
            WriteHoldingRegisterRequest 59 (VBool true);
            WriteHoldingRegisterRequest 56 (VInt 1600);
            WriteHoldingRegisterRequest 57 (VInt 700);
            WriteHoldingRegisterRequest 44 (VInt 0);
            WriteHoldingRegisterRequest 45 (VInt 0)].
Proof.
  apply (mode_storage_sequence CommandBuilder.default_discharge_slot_1 None true).
  - unfold valid_slot, valid_time. simpl. lia.
  - intros s Hs. discriminate Hs.
Defined.

(** ** Bulk refresh plan *)

Lemma append_each_singletons {A B} (f : A → B) (requests : list B) (xs : list A) :
  CommandBuilder.append_each (λ x, [f x]) requests xs = requests ++ (f <$> xs).
Proof.
  unfold CommandBuilder.append_each.
  revert requests. induction xs as [|x xs IH]; intros requests; simpl.
  - by rewrite app_nil_r.
  - by rewrite IH, <- app_assoc.
Qed.

Lemma not_in_none_or_all_in_one (model : option Model) :
  model ∉ [None; Some ALL_IN_ONE] ↔ ∃ m, model = Some m ∧ m ≠ ALL_IN_ONE.
Proof.
  rewrite !not_elem_of_cons. split.
  - intros (Hn & Ha & _). destruct model as [m|]; [|done].
    exists m. split; [done|]. congruence.
  - intros (m & -> & Hm). repeat split; [done|congruence|apply not_elem_of_nil].
Qed.

Lemma refresh_plant_data_plan
    (self : CommandBuilder.t) (complete : bool) (number_batteries max_batteries : Z)
    (extra : option (list Z)) :
  CommandBuilder.refresh_plant_data self complete number_batteries max_batteries
      extra =
    primary_block self
    ++ (if complete then full_refresh_blocks self else [])
    ++ battery_blocks
         (planned_batteries (CommandBuilder.model self) complete number_batteries
            max_batteries)
    ++ extra_blocks self extra.
Proof.
  unfold CommandBuilder.refresh_plant_data, planned_batteries.
  assert (∀ requests,
    match extra with
    | Some ((_ :: _) as hrs) =>
        CommandBuilder.append_each
          (CommandBuilder.refresh_additional_holding_registers self) requests hrs
    | _ => requests
    end = requests ++ extra_blocks self extra) as Hextra.
  { intros requests. unfold extra_blocks.
    destruct extra as [[|hr hrs]|]; simpl; rewrite ?app_nil_r; [done| |done].
    apply (append_each_singletons
      (λ hr, ReadHoldingRegistersRequest _ hr 60) requests (hr :: hrs)). }
  destruct complete; simpl.
  - case_bool_decide as Hm.
    + apply not_in_none_or_all_in_one in Hm as (m & -> & Hm).
      rewrite bool_decide_eq_true_2 by done.
      by rewrite Hextra, append_each_singletons.
    + rewrite Hextra, append_each_singletons.
      destruct (CommandBuilder.model self) as [m|]; [|done].
      rewrite bool_decide_eq_false_2; [done|].
      intros Hne. apply Hne.
      rewrite !elem_of_cons, elem_of_nil in Hm.
      destruct Hm as [?|[?|[]]]; congruence.
  - rewrite Hextra, append_each_singletons.
    by destruct (CommandBuilder.model self).
Qed.

Lemma length_battery_blocks (count : Z) :
  length (battery_blocks count) = Z.to_nat count.
Proof. unfold battery_blocks. by rewrite length_fmap, length_seqZ. Qed.

Lemma filter_battery_blocks (count : Z) :
  filter is_battery_read (battery_blocks count) = battery_blocks count.
Proof.
  unfold battery_blocks. induction (seqZ 0 count) as [|i l IH]; [done|].
  rewrite fmap_cons, filter_cons_True by done. by rewrite IH.
Qed.

Lemma filter_extra_blocks (self : CommandBuilder.t) (extra : option (list Z)) :
  filter is_battery_read (extra_blocks self extra) = [].
Proof.
  unfold extra_blocks. induction (default [] extra) as [|hr l IH]; [done|].
  rewrite fmap_cons, filter_cons_False by (simpl; tauto). exact IH.
Qed.

Lemma battery_reads_of_plan
    (self : CommandBuilder.t) (complete : bool) (number_batteries max_batteries : Z)
    (extra : option (list Z)) :
  filter is_battery_read
    (CommandBuilder.refresh_plant_data self complete number_batteries
       max_batteries extra) =
  battery_blocks
    (planned_batteries (CommandBuilder.model self) complete number_batteries
       max_batteries).
Proof.
  rewrite refresh_plant_data_plan, !filter_app, filter_battery_blocks,
    filter_extra_blocks, app_nil_r.
  by destruct complete.
Qed.

(** The plan on concrete topologies. *)
Example refresh_defaults_full_all_in_one :
  CommandBuilder.refresh_plant_data_default
    (CommandBuilder.init (Some ALL_IN_ONE)) true =
    [ReadInputRegistersRequest 0x11 0 60;
     ReadHoldingRegistersRequest 0x11 0 60;
     ReadHoldingRegistersRequest 0x11 60 60;
     ReadInputRegistersRequest 0x11 120 60;
     ReadInputRegistersRequest 0x32 60 60].
Proof. reflexivity. Qed.

Example refresh_minimal_two_batteries :
  CommandBuilder.refresh_plant_data (CommandBuilder.init None) false 2 5 None =
    [ReadInputRegistersRequest 0x11 0 60;
     ReadInputRegistersRequest 0x32 60 60;
     ReadInputRegistersRequest 0x33 60 60].
Proof. reflexivity. Qed.

Example refresh_full_with_extras :
  CommandBuilder.refresh_plant_data (CommandBuilder.init (Some (OTHER_FAMILY 2)))
    true 1 2 (Some [300; 180]) =
    [ReadInputRegistersRequest 0x32 0 60;
     ReadHoldingRegistersRequest 0x32 0 60;
     ReadHoldingRegistersRequest 0x32 60 60;
     ReadInputRegistersRequest 0x32 120 60;
     ReadInputRegistersRequest 0x32 60 60;
     ReadInputRegistersRequest 0x33 60 60;
     ReadHoldingRegistersRequest 0x32 300 60;
     ReadHoldingRegistersRequest 0x32 180 60].
Proof. reflexivity. Qed.

(** C5, as the claim states it: on a full refresh every model other than the
    all-in-one has its battery count forced to the ceiling. The builder
    whose model is unspecified is not the all-in-one, and its count is not
    forced: with one battery requested and a ceiling of five the plan holds
    one battery read. *)
Lemma refresh_unspecified_model_keeps_count :
  ¬ (∀ (model : option Model) (number_batteries max_batteries : Z)
       (extra : option (list Z)),
       model ≠ Some ALL_IN_ONE →
       filter is_battery_read
         (CommandBuilder.refresh_plant_data (CommandBuilder.init model) true
            number_batteries max_batteries extra) =
       battery_blocks max_batteries).
Proof.
  intros H. specialize (H None 1 5 None). discriminate H. discriminate.
Qed.

(** C5, amended: the plan is, in order, the primary 60-register input read
    (base 0, primary slave address); then, iff [complete], the three fixed
    reads (holding 0, holding 60, input 120) from the primary slave address;
    then one input read of base 60 per battery index in ascending order,
    from slave address 0x32 plus the index; then one holding read per extra
    base register, in the caller's order. With [complete] false and two
    batteries the plan is exactly three reads. With [complete] true on a
    model that is specified and is not the all-in-one, the battery count is
    the ceiling whatever count was requested. *)
Theorem refresh_plan_order
    (model : option Model) (complete : bool) (number_batteries max_batteries : Z)
    (extra : option (list Z)) :
  let self := CommandBuilder.init model in
  let primary := CommandBuilder.main_slave_address self in
  CommandBuilder.refresh_plant_data self complete number_batteries max_batteries
      extra =
    [ReadInputRegistersRequest primary 0 60]
    ++ (if complete
        then [ReadHoldingRegistersRequest primary 0 60;
              ReadHoldingRegistersRequest primary 60 60;
              ReadInputRegistersRequest primary 120 60]
        else [])
    ++ ((λ i, ReadInputRegistersRequest (0x32 + i) 60 60)
          <$> seqZ 0 (planned_batteries model complete number_batteries
                        max_batteries))
    ++ ((λ hr, ReadHoldingRegistersRequest primary hr 60) <$> default [] extra)
  ∧ CommandBuilder.refresh_plant_data self false 2 max_batteries None =
      [ReadInputRegistersRequest primary 0 60;
       ReadInputRegistersRequest 0x32 60 60;
       ReadInputRegistersRequest 0x33 60 60]
  ∧ (∀ m, model = Some m → m ≠ ALL_IN_ONE →
       planned_batteries model true number_batteries max_batteries = max_batteries
       ∧ filter is_battery_read
           (CommandBuilder.refresh_plant_data self true number_batteries
              max_batteries extra) =
         (λ i, ReadInputRegistersRequest (0x32 + i) 60 60) <$> seqZ 0 max_batteries).
Proof.
  intros self primary. split; [|split].
  - apply refresh_plant_data_plan.
  - rewrite refresh_plant_data_plan. subst self primary.
    by destruct model as [[|code]|].
  - intros m -> Hm.
    assert (planned_batteries (Some m) true number_batteries max_batteries
            = max_batteries) as Hplan.
    { unfold planned_batteries. simpl. by rewrite bool_decide_eq_true_2. }
    split; [done|].
    rewrite battery_reads_of_plan.
    change (CommandBuilder.model self) with (Some m). by rewrite Hplan.
Qed.

Lemma refresh_plan_order_witness :
  filter is_battery_read
    (CommandBuilder.refresh_plant_data
       (CommandBuilder.init (Some (OTHER_FAMILY 0))) true 1 3 (Some [180])) =
  [ReadInputRegistersRequest 0x32 60 60;
   ReadInputRegistersRequest 0x33 60 60;
   ReadInputRegistersRequest 0x34 60 60].
Proof.
  pose proof (refresh_plan_order (Some (OTHER_FAMILY 0)) true 1 3 (Some [180]))
    as (_ & _ & Hforced).
  apply (Hforced (OTHER_FAMILY 0)); [reflexivity | discriminate].
Defined.

(** C10: on a full refresh of a model that is neither unspecified nor the
    all-in-one, the per-battery reads are exactly those of [max_batteries]
    batteries, whatever [number_batteries] is, so a request above the
    ceiling is brought down to it; on a minimal refresh the requested count
    is used unchanged for every model, the all-in-one included. *)
Theorem battery_count_forced_to_ceiling
    (self : CommandBuilder.t) (number_batteries max_batteries : Z)
    (extra : option (list Z)) :
  (∀ m, CommandBuilder.model self = Some m → m ≠ ALL_IN_ONE →
     filter is_battery_read
       (CommandBuilder.refresh_plant_data self true number_batteries
          max_batteries extra) = battery_blocks max_batteries
     ∧ length (filter is_battery_read
         (CommandBuilder.refresh_plant_data self true number_batteries
            max_batteries extra)) = Z.to_nat max_batteries)
  ∧ filter is_battery_read
      (CommandBuilder.refresh_plant_data self false number_batteries
         max_batteries extra) = battery_blocks number_batteries
  ∧ length (filter is_battery_read
      (CommandBuilder.refresh_plant_data self false number_batteries
         max_batteries extra)) = Z.to_nat number_batteries.
Proof.
  split; [|split].
  - intros m Hself Hm. rewrite battery_reads_of_plan, Hself.
    unfold planned_batteries. simpl. rewrite bool_decide_eq_true_2 by done.
    split; [done|apply length_battery_blocks].
  - rewrite battery_reads_of_plan. unfold planned_batteries.
    by destruct (CommandBuilder.model self).
  - rewrite battery_reads_of_plan, length_battery_blocks.
    unfold planned_batteries. by destruct (CommandBuilder.model self).
Qed.

Lemma battery_count_forced_to_ceiling_witness :
  length (filter is_battery_read
    (CommandBuilder.refresh_plant_data
       (CommandBuilder.init (Some (OTHER_FAMILY 0))) true 7 5 None)) = 5%nat.
Proof.
  pose proof (battery_count_forced_to_ceiling
    (CommandBuilder.init (Some (OTHER_FAMILY 0))) 7 5 None) as (Hforced & _).
  apply (Hforced (OTHER_FAMILY 0)); [reflexivity | discriminate].
Defined.

(** ** Addresses and the Register Map *)

Lemma bind_Return {A B} (m : result A) (k : A → result B) (b : B) :
  m ≫= k = Return b → ∃ a, m = Return a ∧ k a = Return b.
Proof. destruct m as [a|e]; [by exists a | discriminate]. Qed.

Lemma getattr_declared (name : string) (a : Z) :
  getattr_RegisterMap name = Return a → a ∈ RegisterMap.addresses.
Proof.
  unfold getattr_RegisterMap, RegisterMap.attributes, RegisterMap.addresses.
  destruct (list_to_map _ !! name) as [a'|] eqn:Hlookup; [|discriminate].
  intros [= ->]. apply elem_of_list_to_map_2 in Hlookup.
  apply list_elem_of_fmap. by exists (name, a).
Qed.

Ltac declared :=
  lazymatch goal with
  | |- request_accounted _ _ => unfold request_accounted
  | |- _ => idtac
  end;
  lazymatch goal with
  | |- ?a ∈ ?l => apply (bool_decide_eq_true_1 (a ∈ l)); vm_compute; reflexivity
  end.

Ltac each_request tac :=
  lazymatch goal with
  | |- Forall _ _ =>
      first [apply List.Forall_nil
            |apply List.Forall_cons; [tac | each_request tac]]
  end.

Ltac all_declared := each_request declared.

Lemma range_checked_write {op : operation} (lo hi v : Z) (e : exception)
    (register : Z) (reqs : list TransparentRequest) :
  register ∈ RegisterMap.addresses →
  (if negb (bool_decide (lo ≤ v ≤ hi)) then Raise e
   else Return [WriteHoldingRegisterRequest register (VInt v)]) = Return reqs →
  Forall (request_accounted op) reqs.
Proof.
  intros Hreg. case_bool_decide; simpl; [|discriminate].
  intros [= <-]. by each_request idtac.
Qed.

Lemma set_charge_slot_accounted {op : operation}
    (discharge : bool) (idx : Z) (slot : option TimeSlot)
    (reqs : list TransparentRequest) :
  CommandBuilder._set_charge_slot discharge idx slot = Return reqs →
  Forall (request_accounted op) reqs.
Proof.
  unfold CommandBuilder._set_charge_slot.
  intros (hr_start & Hs%getattr_declared & H)%bind_Return.
  apply bind_Return in H as (hr_end & He%getattr_declared & H).
  destruct slot as [slot|].
  - apply bind_Return in H as (v_start & _ & H).
    apply bind_Return in H as (v_end & _ & [= <-]).
    by each_request idtac.
  - injection H as <-. by each_request idtac.
Qed.

Lemma pause_slot_accounted {op : operation} (register : Z) (t : option time)
    (reqs : list TransparentRequest) :
  register ∈ RegisterMap.addresses →
  match t with
  | Some t =>
      v ← int_of_str (strftime_HM t);
      mret [WriteHoldingRegisterRequest register (VInt v)]
  | None => mret [WriteHoldingRegisterRequest register (VInt 0)]
  end = Return reqs →
  Forall (request_accounted op) reqs.
Proof.
  intros Hreg. destruct t as [t|].
  - intros (v & _ & [= <-])%bind_Return. by each_request idtac.
  - intros [= <-]. by each_request idtac.
Qed.

Lemma refresh_plant_data_reads (self : CommandBuilder.t) (complete : bool)
    (number_batteries max_batteries : Z) (extra : option (list Z)) :
  Forall (λ r, is_write r = false)
    (CommandBuilder.refresh_plant_data self complete number_batteries
       max_batteries extra).
Proof.
  rewrite refresh_plant_data_plan, !Forall_app.
  repeat split.
  - by each_request idtac.
  - destruct complete; by each_request idtac.
  - unfold battery_blocks. by apply Forall_fmap, Forall_true.
  - unfold extra_blocks. by apply Forall_fmap, Forall_true.
Qed.

Lemma mode_storage_accounted {op : operation}
    (discharge_slot_1 : TimeSlot) (discharge_slot_2 : option TimeSlot)
    (discharge_for_export : bool) (reqs : list TransparentRequest) :
  CommandBuilder.set_mode_storage discharge_slot_1 discharge_slot_2
    discharge_for_export = Return reqs →
  Forall (request_accounted op) reqs.
Proof.
  unfold CommandBuilder.set_mode_storage, CommandBuilder.set_discharge_slot_1,
    CommandBuilder.set_discharge_slot_2, CommandBuilder.reset_discharge_slot_2.
  intros (r110 & [= <-] & H)%bind_Return.
  apply bind_Return in H as (slot_1 & H1 & H).
  apply (set_charge_slot_accounted (op:=op)) in H1.
  assert (∃ slot_2, Forall (request_accounted op) slot_2 ∧ reqs =
    ((if discharge_for_export then CommandBuilder.set_discharge_mode_max_power
      else CommandBuilder.set_discharge_mode_to_match_demand)
     ++ [WriteHoldingRegisterRequest RegisterMap.BATTERY_SOC_RESERVE (VInt 100)])
    ++ CommandBuilder.set_enable_discharge true ++ slot_1 ++ slot_2)
    as (slot_2 & H2 & ->).
  { destruct discharge_slot_2 as [slot|];
      apply bind_Return in H as (slot_2 & H2 & [= <-]);
      apply (set_charge_slot_accounted (op:=op)) in H2;
      exists slot_2; by rewrite <- !app_assoc. }
  rewrite !Forall_app.
  split; [split|split; [|split]]; [|all_declared|all_declared|done|done].
  destruct discharge_for_export; all_declared.
Qed.

Ltac range_checked :=
  let H := fresh in
  intros H; eapply range_checked_write; [|exact H]; declared.

Ltac pause_slot :=
  let H := fresh in
  intros H; eapply pause_slot_accounted; [|exact H]; declared.

Lemma operations_accounted (self : CommandBuilder.t) (op : operation)
    (reqs : list TransparentRequest) :
  run self op = Return reqs → Forall (request_accounted op) reqs.
Proof.
  destruct op; cbn [run];
    lazymatch goal with
    | |- Return (CommandBuilder.refresh_plant_data _ _ _ _ _) = _ → _ =>
        intros [= <-];
        eapply Forall_impl; [apply refresh_plant_data_reads|]; by intros [] ?
    | |- Return _ = _ → _ =>
        intros [= <-]; each_request ltac:(first [declared | reflexivity])
    | |- CommandBuilder._set_charge_slot _ _ _ = _ → _ =>
        apply set_charge_slot_accounted
    | |- CommandBuilder.set_mode_storage _ _ _ = _ → _ =>
        apply mode_storage_accounted
    | |- _ => idtac
    end.
  - unfold CommandBuilder.set_charge_target. range_checked.
  - unfold CommandBuilder.set_shallow_charge,
      CommandBuilder.set_battery_soc_reserve. range_checked.
  - unfold CommandBuilder.set_battery_soc_reserve. range_checked.
  - unfold CommandBuilder.set_battery_charge_limit. range_checked.
  - unfold CommandBuilder.set_battery_discharge_limit. range_checked.
  - unfold CommandBuilder.set_battery_power_reserve. range_checked.
  - unfold CommandBuilder.set_battery_pause_mode. range_checked.
  - unfold CommandBuilder.set_pause_slot_start. pause_slot.
  - unfold CommandBuilder.set_pause_slot_end. pause_slot.
  - unfold CommandBuilder.set_charge_slot_1. apply set_charge_slot_accounted.
  - unfold CommandBuilder.reset_charge_slot_1. apply set_charge_slot_accounted.
  - unfold CommandBuilder.set_charge_slot_2. apply set_charge_slot_accounted.
  - unfold CommandBuilder.reset_charge_slot_2. apply set_charge_slot_accounted.
  - unfold CommandBuilder.set_discharge_slot_1. apply set_charge_slot_accounted.
  - unfold CommandBuilder.reset_discharge_slot_1. apply set_charge_slot_accounted.
  - unfold CommandBuilder.set_discharge_slot_2. apply set_charge_slot_accounted.
  - unfold CommandBuilder.reset_discharge_slot_2. apply set_charge_slot_accounted.
  - intros [= <-]. all_declared.
Qed.

(** C2, as the claim states it: the Register Map declares 30 constants, and
    every request of every operation refers to one of them. The map
    declares 29; and the minimal refresh plan reads the input block at base
    0, which is no declared register. *)
Lemma refresh_reads_outside_register_map :
  length RegisterMap.declarations ≠ 30%nat
  ∧ ¬ (∀ (self : CommandBuilder.t) (op : operation)
         (reqs : list TransparentRequest),
         run self op = Return reqs →
         Forall (λ r, address r ∈ RegisterMap.addresses) reqs).
Proof.
  split; [discriminate|].
  intros H.
  specialize (H (CommandBuilder.init None) (Refresh_plant_data false 0 5 None) _
                eq_refl).
  apply Forall_inv in H. revert H.
  apply (bool_decide_eq_false_1 (0 ∈ RegisterMap.addresses)).
  vm_compute. reflexivity.
Qed.

(** C2, amended: the Register Map declares 29 named constants; for every
    operation and every input on which it returns, every write request in
    the returned sequence goes to a register that is one of them, and read
    requests are produced by the two refresh operations only, whose base
    registers (0, 60, 120 and the caller's) are not taken from the map. *)
Theorem writes_stay_in_register_map :
  length RegisterMap.declarations = 29%nat
  ∧ (∀ (self : CommandBuilder.t) (op : operation)
       (reqs : list TransparentRequest) (r : TransparentRequest),
       run self op = Return reqs → r ∈ reqs →
       (is_write r = true → address r ∈ RegisterMap.addresses)
       ∧ (is_write r = false → is_refresh op = true)).
Proof.
  split; [reflexivity|].
  intros self op reqs r Hrun Hr.
  apply operations_accounted in Hrun.
  rewrite Forall_forall in Hrun. specialize (Hrun r Hr).
  destruct r; simpl in *; split; done.
Qed.

Lemma writes_stay_in_register_map_witness :
  address (WriteHoldingRegisterRequest 116 (VInt 80)) ∈ RegisterMap.addresses.
Proof.
  apply (proj2 writes_stay_in_register_map (CommandBuilder.init None)
           (Set_charge_target 80) [WriteHoldingRegisterRequest 116 (VInt 80)]);
    [reflexivity | apply list_elem_of_here | reflexivity].
Defined.

(** ** Deprecated aliases *)

(** Reached through the class, each alias is the operation it wraps. *)
Lemma aliases_through_the_class :
  CommandBuilder.enable_charge = CommandBuilder.set_enable_charge true
  ∧ CommandBuilder.disable_charge = CommandBuilder.set_enable_charge false
  ∧ CommandBuilder.enable_discharge = CommandBuilder.set_enable_discharge true
  ∧ CommandBuilder.disable_discharge = CommandBuilder.set_enable_discharge false
  ∧ (∀ v, CommandBuilder.set_shallow_charge v =
          CommandBuilder.set_battery_soc_reserve v)
  ∧ (∀ val, call_on_class method_set_shallow_charge [val] =
            call_on_class method_set_battery_soc_reserve [val]).
Proof. by repeat split. Qed.

(** Reached through an instance, [set_shallow_charge] never gets as far as
    its body with an integer: the instance arrives as [val]. *)
Lemma shallow_charge_through_an_instance
    (self : CommandBuilder.t) (args : list argument) :
  ∃ msg, call_on_instance self method_set_shallow_charge args =
         Raise (TypeError msg).
Proof.
  destruct args as [|val [|val' args]]; by eexists.
Qed.

(** C9, at the call [CommandBuilder().set_shallow_charge(50)]: the alias is
    declared without [@staticmethod], so the instance is bound as [val] and
    50 is one positional argument too many; the call raises [TypeError],
    where [CommandBuilder().set_battery_soc_reserve(50)] returns the single
    write of 50 to the SOC reserve register. *)
Theorem shallow_charge_alias_diverges :
  call_on_instance (CommandBuilder.init None) method_set_shallow_charge [AInt 50] =
    Raise (TypeError
             "CommandBuilder.set_shallow_charge() takes 1 positional argument but 2 were given")
  ∧ call_on_instance (CommandBuilder.init None) method_set_battery_soc_reserve
      [AInt 50] =
    Return [WriteHoldingRegisterRequest RegisterMap.BATTERY_SOC_RESERVE (VInt 50)].
Proof. split; reflexivity. Qed.

(** * Further properties *)

(** ** Strings *)

Lemma string_length_app (a b : string) :
  String.length (a +:+ b) = (String.length a + String.length b)%nat.
Proof.
  induction a as [|x a IH]; [done|].
  change (S (String.length (a +:+ b)) = S (String.length a + String.length b)).
  by rewrite IH.
Qed.

Lemma strip_prefix_app (p x : string) : strip_prefix p (p +:+ x) = Some x.
Proof.
  induction p as [|a p IH]; [by destruct x|].
  change (strip_prefix (String a p) (String a (p +:+ x)) = Some x).
  simpl. by rewrite decide_True.
Qed.

Lemma strip_suffix_app (q x : string) : strip_suffix q (x +:+ q) = Some x.
Proof.
  induction x as [|a x IH].
  - change (strip_suffix q q = Some EmptyString).
    destruct q; simpl; repeat case_decide; done.
  - change (strip_suffix q (String a (x +:+ q)) = Some (String a x)).
    simpl. rewrite decide_False, IH; [done|].
    intros H%(f_equal String.length). simpl in H.
    rewrite string_length_app in H. lia.
Qed.

Lemma middle_app (p q x : string) : middle p q (p +:+ x +:+ q) = Some x.
Proof.
  unfold middle. rewrite strip_prefix_app. simpl. apply strip_suffix_app.
Qed.

(** ** The Register Map as a lookup table *)

Lemma names_distinct : NoDup declared_names.
Proof. apply (bool_decide_eq_true_1 (NoDup declared_names)). vm_compute. reflexivity. Qed.

Lemma addresses_distinct : NoDup RegisterMap.addresses.
Proof.
  apply (bool_decide_eq_true_1 (NoDup RegisterMap.addresses)).
  vm_compute. reflexivity.
Qed.

Lemma getattr_Return (name : string) (a : Z) :
  getattr_RegisterMap name = Return a ↔ (name, a) ∈ RegisterMap.declarations.
Proof.
  unfold getattr_RegisterMap, RegisterMap.attributes. split.
  - destruct (list_to_map _ !! name) as [a'|] eqn:Hlookup; [|discriminate].
    intros [= ->]. by apply elem_of_list_to_map_2 in Hlookup.
  - intros Hin. by rewrite (elem_of_list_to_map_1 _ _ _ names_distinct Hin).
Qed.

Lemma snd_determines_fst {A B} (l : list (A * B)) (x x' : A) (y : B) :
  NoDup l.*2 → (x, y) ∈ l → (x', y) ∈ l → x = x'.
Proof.
  induction l as [|[x0 y0] l IH]; simpl.
  - by intros _ ?%elem_of_nil.
  - rewrite NoDup_cons, !elem_of_cons. intros [Hnew Hl] [Hx|Hx] [Hx'|Hx'].
    + congruence.
    + injection Hx as -> ->. destruct Hnew.
      apply list_elem_of_fmap. by exists (x', y0).
    + injection Hx' as -> ->. destruct Hnew.
      apply list_elem_of_fmap. by exists (x, y0).
    + by apply IH.
Qed.

(** X1: a declared name resolves to the address declared for it and to no
    other; a name the class does not declare raises [AttributeError], whose
    message quotes the name. *)
Theorem getattr_resolves_declared_names (name : string) :
  (∀ a, (name, a) ∈ RegisterMap.declarations ↔ getattr_RegisterMap name = Return a)
  ∧ (name ∉ declared_names →
     ∃ msg, getattr_RegisterMap name = Raise (AttributeError msg)
            ∧ mentions name msg).
Proof.
  split.
  - intros a. symmetry. apply getattr_Return.
  - intros Hname. eexists. split; [|apply mentions_inside].
    unfold getattr_RegisterMap, RegisterMap.attributes.
    by rewrite (not_elem_of_list_to_map_1 _ _ Hname).
Qed.

Lemma getattr_resolves_declared_names_witness :
  ∃ msg, getattr_RegisterMap "CHARGE_SLOT_3_START" = Raise (AttributeError msg)
         ∧ mentions "CHARGE_SLOT_3_START" msg.
Proof.
  apply (getattr_resolves_declared_names "CHARGE_SLOT_3_START").
  apply (bool_decide_eq_true_1 ("CHARGE_SLOT_3_START"%string ∉ declared_names)).
  vm_compute. reflexivity.
Defined.

(** X2: no two declared names share an address: two names that resolve to
    the same register are the same name. *)
Theorem getattr_injective (name name' : string) (a : Z) :
  getattr_RegisterMap name = Return a →
  getattr_RegisterMap name' = Return a →
  name = name'.
Proof.
  rewrite !getattr_Return.
  apply snd_determines_fst, addresses_distinct.
Qed.

Lemma getattr_injective_witness :
  "ENABLE_DISCHARGE"%string = "ENABLE_DISCHARGE"%string.
Proof.
  apply (getattr_injective "ENABLE_DISCHARGE" "ENABLE_DISCHARGE" 59);
    vm_compute; reflexivity.
Defined.

(** ** Slot indices *)

Lemma slot_names_checked :
  slot_names_ok "CHARGE_SLOT_" "_START" = true
  ∧ slot_names_ok "CHARGE_SLOT_" "_END" = true
  ∧ slot_names_ok "DISCHARGE_SLOT_" "_START" = true
  ∧ slot_names_ok "DISCHARGE_SLOT_" "_END" = true.
Proof. vm_compute. by repeat split. Qed.

Lemma declared_middle (p q idx : string) :
  slot_names_ok p q = true →
  p +:+ idx +:+ q ∈ declared_names →
  idx = "1"%string ∨ idx = "2"%string.
Proof.
  unfold slot_names_ok. rewrite forallb_forall.
  intros Hok Hin%list_elem_of_In. apply Hok in Hin.
  rewrite middle_app in Hin. apply bool_decide_eq_true_1 in Hin.
  rewrite !elem_of_cons, elem_of_nil in Hin. tauto.
Qed.

Lemma pretty_index (idx : Z) :
  pretty idx = "1"%string ∨ pretty idx = "2"%string → idx = 1 ∨ idx = 2.
Proof.
  intros [H|H]; [left|right]; by apply (inj (pretty : Z → string)).
Qed.

Lemma slot_attribute_declared (discharge : bool) (idx : Z) (suffix : string) :
  suffix ∈ ["_START"; "_END"]%string →
  CommandBuilder.slot_attribute discharge idx suffix ∈ declared_names →
  idx = 1 ∨ idx = 2.
Proof.
  rewrite !elem_of_cons, elem_of_nil.
  destruct slot_names_checked as (Hcs & Hce & Hds & Hde).
  unfold CommandBuilder.slot_attribute.
  intros [->|[->|[]]] Hin; apply pretty_index;
    destruct discharge;
    first [ apply (declared_middle "DISCHARGE_SLOT_" "_START" _ Hds Hin)
          | apply (declared_middle "DISCHARGE_SLOT_" "_END" _ Hde Hin)
          | apply (declared_middle "CHARGE_SLOT_" "_START" _ Hcs Hin)
          | apply (declared_middle "CHARGE_SLOT_" "_END" _ Hce Hin) ].
Qed.

Lemma slot_index_cases (idx : Z) : idx ∈ [1; 2] ↔ ∃ second, idx = slot_index second.
Proof.
  rewrite !elem_of_cons, elem_of_nil. split.
  - intros [->|[->|[]]]; [by exists false | by exists true].
  - intros [[] ->]; simpl; tauto.
Qed.

(** X3: [_set_charge_slot] resolves its registers before it looks at the
    slot. With an index other than 1 or 2 it raises [AttributeError],
    quoting the start attribute it could not find, whether a slot is given
    or not; with index 1 or 2 and a slot Python can construct, or none, it
    returns two writes. *)
Theorem set_charge_slot_index_guard
    (discharge : bool) (idx : Z) (slot : option TimeSlot) :
  (idx ∉ [1; 2] →
     ∃ msg, CommandBuilder._set_charge_slot discharge idx slot =
              Raise (AttributeError msg)
            ∧ mentions (CommandBuilder.slot_attribute discharge idx "_START") msg)
  ∧ (idx ∈ [1; 2] → valid_optional_slot slot →
     ∃ r_start r_end,
       CommandBuilder._set_charge_slot discharge idx slot = Return [r_start; r_end]
       ∧ is_write r_start = true ∧ is_write r_end = true).
Proof.
  split.
  - intros Hidx.
    destruct (getattr_resolves_declared_names
                (CommandBuilder.slot_attribute discharge idx "_START"))
      as [_ Hmissing].
    destruct Hmissing as (msg & Hraise & Hmsg).
    + intros Hin. apply Hidx.
      apply slot_attribute_declared in Hin; [|apply list_elem_of_here].
      rewrite !elem_of_cons. tauto.
    + exists msg. split; [|done].
      unfold CommandBuilder._set_charge_slot. by rewrite Hraise.
  - intros (second & ->)%slot_index_cases Hvalid.
    destruct slot as [slot|].
    + rewrite (set_charge_slot_some _ _ _ (Hvalid _ eq_refl)). by do 2 eexists.
    + rewrite set_charge_slot_none. by do 2 eexists.
Qed.

Lemma set_charge_slot_index_guard_witness :
  (∃ msg, CommandBuilder._set_charge_slot false 0 None = Raise (AttributeError msg)
          ∧ mentions "CHARGE_SLOT_0_START" msg)
  ∧ ∃ r_start r_end,
      CommandBuilder._set_charge_slot true 2
        (Some CommandBuilder.default_discharge_slot_1) = Return [r_start; r_end]
      ∧ is_write r_start = true ∧ is_write r_end = true.
Proof.
  split.
  - apply (set_charge_slot_index_guard false 0 None).
    rewrite !not_elem_of_cons. repeat split; [lia | lia | apply not_elem_of_nil].
  - apply (set_charge_slot_index_guard true 2
             (Some CommandBuilder.default_discharge_slot_1)).
    + rewrite !elem_of_cons. lia.
    + intros s [= <-]. unfold valid_slot, valid_time. simpl. lia.
Defined.

(** ** Packed clock times *)

Lemma packed_time_bounds (t : time) :
  valid_time t →
  0 ≤ encode_clock t ≤ 2359
  ∧ encode_clock t `div` 100 = t_hour t
  ∧ encode_clock t `mod` 100 = t_minute t.
Proof.
  intros (Hh & Hm & _). unfold encode_clock.
  split; [lia|]. split.
  - symmetry. apply (Z.div_unique _ _ _ (t_minute t)); lia.
  - symmetry. apply (Z.mod_unique _ _ (t_hour t)); lia.
Qed.

Lemma encode_clock_same (t t' : time) :
  valid_time t → valid_time t' →
  encode_clock t = encode_clock t' ↔ same_clock t t'.
Proof.
  intros Ht Ht'. unfold same_clock. split.
  - intros Heq.
    destruct (packed_time_bounds t Ht) as (_ & <- & <-).
    destruct (packed_time_bounds t' Ht') as (_ & <- & <-).
    by rewrite Heq.
  - intros [Hh Hm]. unfold encode_clock. by rewrite Hh, Hm.
Qed.

(** X4: the pause-window operations write one register each: the start to
    [BATTERY_PAUSE_SLOT_START] and the end to [BATTERY_PAUSE_SLOT_END], as
    hour*100+minute for a clock time and as 0 for [None]. *)
Theorem pause_slot_writes_packed_time (t : time) :
  valid_time t →
  CommandBuilder.set_pause_slot_start (Some t) =
    Return [WriteHoldingRegisterRequest RegisterMap.BATTERY_PAUSE_SLOT_START
              (VInt (t_hour t * 100 + t_minute t))]
  ∧ CommandBuilder.set_pause_slot_end (Some t) =
    Return [WriteHoldingRegisterRequest RegisterMap.BATTERY_PAUSE_SLOT_END
              (VInt (t_hour t * 100 + t_minute t))]
  ∧ CommandBuilder.set_pause_slot_start None =
    Return [WriteHoldingRegisterRequest RegisterMap.BATTERY_PAUSE_SLOT_START (VInt 0)]
  ∧ CommandBuilder.set_pause_slot_end None =
    Return [WriteHoldingRegisterRequest RegisterMap.BATTERY_PAUSE_SLOT_END (VInt 0)].
Proof.
  intros Ht. unfold CommandBuilder.set_pause_slot_start,
    CommandBuilder.set_pause_slot_end.
  by rewrite (strftime_HM_packs _ Ht).
Qed.

Lemma pause_slot_writes_packed_time_witness :
  CommandBuilder.set_pause_slot_end
    (Some {| t_hour := 5; t_minute := 30; t_second := 12 |}) =
    Return [WriteHoldingRegisterRequest 320 (VInt 530)].
Proof.
  apply (pause_slot_writes_packed_time {| t_hour := 5; t_minute := 30; t_second := 12 |}).
  unfold valid_time. simpl. lia.
Defined.

(** X5: the packed value can be read back: for a clock time Python can
    construct, [int(t.strftime("%H%M"))] is a number between 0 and 2359
    whose quotient by 100 is the hour and whose remainder is the minute. *)
Theorem packed_time_reads_back (t : time) :
  valid_time t →
  ∃ v, int_of_str (strftime_HM t) = Return v
       ∧ 0 ≤ v ≤ 2359
       ∧ v `div` 100 = t_hour t
       ∧ v `mod` 100 = t_minute t.
Proof.
  intros Ht. exists (encode_clock t).
  split; [by apply strftime_HM_packs | by apply packed_time_bounds].
Qed.

Lemma packed_time_reads_back_witness :
  ∃ v, int_of_str "0705" = Return v
       ∧ 0 ≤ v ≤ 2359 ∧ v `div` 100 = 7 ∧ v `mod` 100 = 5.
Proof.
  apply (packed_time_reads_back {| t_hour := 7; t_minute := 5; t_second := 0 |}).
  unfold valid_time. simpl. lia.
Defined.

(** X6: seconds never reach the inverter and nothing else is lost: for slots
    Python can construct, a slot operation returns the same writes for two
    slots exactly when their starts agree on hour and minute and their ends
    agree on hour and minute. *)
Theorem slot_writes_identify_slot
    (discharge second_slot : bool) (slot slot' : TimeSlot) :
  valid_slot slot → valid_slot slot' →
  CommandBuilder._set_charge_slot discharge (slot_index second_slot) (Some slot) =
  CommandBuilder._set_charge_slot discharge (slot_index second_slot) (Some slot')
  ↔ same_clock (start slot) (start slot') ∧ same_clock (end_ slot) (end_ slot').
Proof.
  intros Hs Hs'.
  rewrite (set_charge_slot_some _ _ _ Hs), (set_charge_slot_some _ _ _ Hs').
  destruct Hs as [Hs He], Hs' as [Hs' He'].
  rewrite <- (encode_clock_same _ _ Hs Hs'), <- (encode_clock_same _ _ He He').
  split.
  - intros [= -> ->]. done.
  - intros [-> ->]. done.
Qed.

Lemma slot_writes_identify_slot_witness :
  CommandBuilder._set_charge_slot false 1
    (Some {| start := {| t_hour := 1; t_minute := 30; t_second := 0 |};
             end_ := {| t_hour := 4; t_minute := 0; t_second := 0 |} |}) =
  CommandBuilder._set_charge_slot false 1
    (Some {| start := {| t_hour := 1; t_minute := 30; t_second := 59 |};
             end_ := {| t_hour := 4; t_minute := 0; t_second := 10 |} |}).
Proof.
  apply (slot_writes_identify_slot false false);
    unfold valid_slot, valid_time, same_clock; simpl; lia.
Defined.

(** X7: a window from midnight to midnight cannot be told from a cleared
    one: for a slot Python can construct, setting it returns the writes of
    the reset exactly when its start and its end are both 00:00; and a pause
    bound is written as the clear exactly when it is 00:00. *)
Theorem midnight_slot_is_the_clear
    (discharge second_slot : bool) (slot : TimeSlot) :
  valid_slot slot →
  (CommandBuilder._set_charge_slot discharge (slot_index second_slot) (Some slot) =
   CommandBuilder._set_charge_slot discharge (slot_index second_slot) None
   ↔ is_midnight (start slot) ∧ is_midnight (end_ slot))
  ∧ (CommandBuilder.set_pause_slot_start (Some (start slot)) =
     CommandBuilder.set_pause_slot_start None ↔ is_midnight (start slot))
  ∧ (CommandBuilder.set_pause_slot_end (Some (end_ slot)) =
     CommandBuilder.set_pause_slot_end None ↔ is_midnight (end_ slot)).
Proof.
  intros [Hs He].
  assert (∀ t, valid_time t → encode_clock t = 0 ↔ is_midnight t) as Hzero.
  { intros t (Hh & Hm & _). unfold encode_clock, is_midnight. lia. }
  split; [|split].
  - rewrite (set_charge_slot_some _ _ _ (conj Hs He)), set_charge_slot_none.
    rewrite <- (Hzero _ Hs), <- (Hzero _ He). split.
    + intros [= -> ->]. done.
    + intros [-> ->]. done.
  - unfold CommandBuilder.set_pause_slot_start.
    rewrite (strftime_HM_packs _ Hs), <- (Hzero _ Hs). simpl. split.
    + intros [= ->]. done.
    + intros ->. done.
  - unfold CommandBuilder.set_pause_slot_end.
    rewrite (strftime_HM_packs _ He), <- (Hzero _ He). simpl. split.
    + intros [= ->]. done.
    + intros ->. done.
Qed.

Lemma midnight_slot_is_the_clear_witness :
  CommandBuilder._set_charge_slot true 1
    (Some {| start := {| t_hour := 0; t_minute := 0; t_second := 30 |};
             end_ := {| t_hour := 0; t_minute := 0; t_second := 0 |} |}) =
  CommandBuilder._set_charge_slot true 1 None.
Proof.
  pose proof (midnight_slot_is_the_clear true false
    {| start := {| t_hour := 0; t_minute := 0; t_second := 30 |};
       end_ := {| t_hour := 0; t_minute := 0; t_second := 0 |} |}) as H.
  apply H.
  - unfold valid_slot, valid_time. simpl. lia.
  - unfold is_midnight. simpl. tauto.
Defined.

(** ** More on the refresh plan *)

(** X8: the plan holds one primary read, three more on a full refresh, one
    read per planned battery and one per extra base register; a battery
    count of zero or less plans no battery read. *)
Theorem refresh_plan_length
    (self : CommandBuilder.t) (complete : bool) (number_batteries max_batteries : Z)
    (extra : option (list Z)) :
  length (CommandBuilder.refresh_plant_data self complete number_batteries
            max_batteries extra) =
  (1 + (if complete then 3 else 0)
   + Z.to_nat (planned_batteries (CommandBuilder.model self) complete
                 number_batteries max_batteries)
   + length (default [] extra))%nat.
Proof.
  rewrite refresh_plant_data_plan, !length_app, length_battery_blocks.
  unfold extra_blocks. rewrite length_fmap.
  destruct complete; simpl; lia.
Qed.

Lemma battery_blocks_planned (self : CommandBuilder.t) (batteries : Z) :
  Forall (planned_read self batteries) (battery_blocks batteries).
Proof.
  unfold battery_blocks. apply Forall_fmap, Forall_forall.
  intros i Hi%elem_of_seqZ. simpl. split; [done|]. right. lia.
Qed.

(** X9: a refresh plan never writes: every request in it reads exactly 60
    registers; the holding reads and the input reads of the blocks at 0 and
    120 go to the primary slave address, and the input reads of the block at
    60 go to the slave addresses from 0x32 up to 0x32 plus the planned
    battery count, exclusive. *)
Theorem refresh_plan_only_reads
    (self : CommandBuilder.t) (complete : bool) (number_batteries max_batteries : Z)
    (extra : option (list Z)) :
  Forall
    (planned_read self
       (planned_batteries (CommandBuilder.model self) complete number_batteries
          max_batteries))
    (CommandBuilder.refresh_plant_data self complete number_batteries
       max_batteries extra).
Proof.
  rewrite refresh_plant_data_plan, !Forall_app.
  split; [|split; [|split]].
  - apply List.Forall_cons; [|apply List.Forall_nil]. simpl. tauto.
  - destruct complete; [|apply List.Forall_nil].
    repeat (apply List.Forall_cons; [simpl; tauto|]). apply List.Forall_nil.
  - apply battery_blocks_planned.
  - unfold extra_blocks. apply Forall_fmap, Forall_forall. by intros hr _.
Qed.

(** X10: the extra base registers only extend the plan: the plan with extra
    registers is the plan without them followed by what
    [refresh_additional_holding_registers] returns for each, in the
    caller's order; an empty list adds nothing, like [None]. *)
Theorem refresh_plan_extends_with_extras
    (self : CommandBuilder.t) (complete : bool) (number_batteries max_batteries : Z)
    (hrs : list Z) :
  CommandBuilder.refresh_plant_data self complete number_batteries max_batteries
    (Some hrs) =
  CommandBuilder.refresh_plant_data self complete number_batteries max_batteries
    None
  ++ (hrs ≫= CommandBuilder.refresh_additional_holding_registers self).
Proof.
  assert (hrs ≫= CommandBuilder.refresh_additional_holding_registers self
          = extra_blocks self (Some hrs)) as ->.
  { unfold extra_blocks. simpl.
    induction hrs as [|hr hrs IH]; [done|]. simpl. by f_equal. }
  rewrite !refresh_plant_data_plan.
  change (extra_blocks self None) with (@nil TransparentRequest).
  by rewrite app_nil_r, <- !app_assoc.
Qed.

(** X11: a requested count of zero or less plans no battery read on a
    minimal refresh, and a ceiling of zero or less plans none on a full
    refresh of a model that is specified and is not the all-in-one: what is
    left is the fixed blocks followed by the extra ones. *)
Theorem refresh_plan_without_batteries
    (self : CommandBuilder.t) (number_batteries max_batteries : Z)
    (extra : option (list Z)) :
  (number_batteries ≤ 0 →
     CommandBuilder.refresh_plant_data self false number_batteries max_batteries
       extra =
     ReadInputRegistersRequest (CommandBuilder.main_slave_address self) 0 60
     :: extra_blocks self extra)
  ∧ (max_batteries ≤ 0 →
     ∀ m, CommandBuilder.model self = Some m → m ≠ ALL_IN_ONE →
     CommandBuilder.refresh_plant_data self true number_batteries max_batteries
       extra =
     [ReadInputRegistersRequest (CommandBuilder.main_slave_address self) 0 60;
      ReadHoldingRegistersRequest (CommandBuilder.main_slave_address self) 0 60;
      ReadHoldingRegistersRequest (CommandBuilder.main_slave_address self) 60 60;
      ReadInputRegistersRequest (CommandBuilder.main_slave_address self) 120 60]
     ++ extra_blocks self extra).
Proof.
  assert (∀ count, count ≤ 0 → battery_blocks count = []) as Hnone.
  { intros count Hcount. unfold battery_blocks, seqZ.
    by replace (Z.to_nat count) with 0%nat by lia. }
  split.
  - intros Hn. rewrite refresh_plant_data_plan.
    replace (planned_batteries _ false _ _) with number_batteries
      by (unfold planned_batteries; by destruct (CommandBuilder.model self)).
    by rewrite (Hnone _ Hn).
  - intros Hmax m Hm Hne. rewrite refresh_plant_data_plan, Hm.
    unfold planned_batteries. simpl. rewrite bool_decide_eq_true_2 by done.
    by rewrite (Hnone _ Hmax).
Qed.

Lemma refresh_plan_without_batteries_witness :
  CommandBuilder.refresh_plant_data (CommandBuilder.init None) false (-3) 5
    (Some [240]) =
  [ReadInputRegistersRequest 0x11 0 60; ReadHoldingRegistersRequest 0x11 240 60].
Proof.
  apply (refresh_plan_without_batteries (CommandBuilder.init None) (-3) 5
           (Some [240])).
  lia.
Defined.

(** ** What the writing operations return *)

Lemma range_checked_inv (lo hi v : Z) (e : exception) (register : Z)
    (reqs : list TransparentRequest) :
  (if negb (bool_decide (lo ≤ v ≤ hi)) then Raise e
   else Return [WriteHoldingRegisterRequest register (VInt v)]) = Return reqs →
  lo ≤ v ≤ hi ∧ reqs = [WriteHoldingRegisterRequest register (VInt v)].
Proof. case_bool_decide; simpl; [|discriminate]. by intros [= <-]. Qed.

Lemma getattr_slot_inv (discharge : bool) (idx : Z) (suffix : string) (a : Z) :
  suffix ∈ ["_START"; "_END"]%string →
  getattr_RegisterMap (CommandBuilder.slot_attribute discharge idx suffix)
    = Return a →
  idx ∈ [1; 2].
Proof.
  intros Hsuffix Hget%getattr_Return.
  rewrite !elem_of_cons.
  destruct (slot_attribute_declared discharge idx suffix Hsuffix); [|tauto..].
  apply list_elem_of_fmap. by exists (CommandBuilder.slot_attribute discharge idx suffix, a).
Qed.

Lemma set_charge_slot_inv
    (discharge : bool) (idx : Z) (slot : option TimeSlot)
    (reqs : list TransparentRequest) :
  CommandBuilder._set_charge_slot discharge idx slot = Return reqs →
  ∃ second_slot v_start v_end,
    idx = slot_index second_slot
    ∧ reqs =
        [WriteHoldingRegisterRequest (slot_registers discharge second_slot).1
           (VInt v_start);
         WriteHoldingRegisterRequest (slot_registers discharge second_slot).2
           (VInt v_end)]
    ∧ match slot with
      | Some slot =>
          int_of_str (strftime_HM (start slot)) = Return v_start
          ∧ int_of_str (strftime_HM (end_ slot)) = Return v_end
      | None => v_start = 0 ∧ v_end = 0
      end.
Proof.
  unfold CommandBuilder._set_charge_slot.
  intros (hr_start & Hs & H)%bind_Return.
  pose proof (getattr_slot_inv _ _ _ _ (list_elem_of_here _ _) Hs) as Hidx.
  apply slot_index_cases in Hidx as [second_slot ->].
  destruct (slot_attributes_resolve discharge second_slot) as [Hrs Hre].
  rewrite Hrs in Hs. injection Hs as <-.
  rewrite Hre in H. cbn [mbind result_bind] in H.
  exists second_slot.
  destruct slot as [slot|].
  - apply bind_Return in H as (v_start & Hv_start & H).
    apply bind_Return in H as (v_end & Hv_end & [= <-]).
    exists v_start, v_end. clear Hrs Hre.
    split; [reflexivity|]. split; [reflexivity|]. split; assumption.
  - injection H as <-. exists 0, 0. clear Hrs Hre.
    split; [reflexivity|]. split; [reflexivity|]. split; reflexivity.
Qed.

Lemma pause_slot_inv (register : Z) (t : option time)
    (reqs : list TransparentRequest) :
  match t with
  | Some t =>
      v ← int_of_str (strftime_HM t);
      mret [WriteHoldingRegisterRequest register (VInt v)]
  | None => mret [WriteHoldingRegisterRequest register (VInt 0)]
  end = Return reqs →
  ∃ v, reqs = [WriteHoldingRegisterRequest register (VInt v)]
       ∧ match t with
         | Some t => int_of_str (strftime_HM t) = Return v
         | None => v = 0
         end.
Proof.
  destruct t as [t|].
  - intros (v & Hv & [= <-])%bind_Return. by exists v.
  - intros [= <-]. by exists 0.
Qed.

Lemma mode_storage_inv
    (discharge_slot_1 : TimeSlot) (discharge_slot_2 : option TimeSlot)
    (discharge_for_export : bool) (reqs : list TransparentRequest) :
  CommandBuilder.set_mode_storage discharge_slot_1 discharge_slot_2
    discharge_for_export = Return reqs →
  ∃ v1_start v1_end v2_start v2_end,
    reqs =
      [WriteHoldingRegisterRequest RegisterMap.BATTERY_POWER_MODE
         (VInt (if discharge_for_export then 0 else 1));
       WriteHoldingRegisterRequest RegisterMap.BATTERY_SOC_RESERVE (VInt 100);
       WriteHoldingRegisterRequest RegisterMap.ENABLE_DISCHARGE (VBool true);
       WriteHoldingRegisterRequest RegisterMap.DISCHARGE_SLOT_1_START (VInt v1_start);
       WriteHoldingRegisterRequest RegisterMap.DISCHARGE_SLOT_1_END (VInt v1_end);
       WriteHoldingRegisterRequest RegisterMap.DISCHARGE_SLOT_2_START (VInt v2_start);
       WriteHoldingRegisterRequest RegisterMap.DISCHARGE_SLOT_2_END (VInt v2_end)]
    ∧ int_of_str (strftime_HM (start discharge_slot_1)) = Return v1_start
    ∧ int_of_str (strftime_HM (end_ discharge_slot_1)) = Return v1_end
    ∧ match discharge_slot_2 with
      | Some slot =>
          int_of_str (strftime_HM (start slot)) = Return v2_start
          ∧ int_of_str (strftime_HM (end_ slot)) = Return v2_end
      | None => v2_start = 0 ∧ v2_end = 0
      end.
Proof.
  unfold CommandBuilder.set_mode_storage, CommandBuilder.set_discharge_slot_1,
    CommandBuilder.set_discharge_slot_2, CommandBuilder.reset_discharge_slot_2.
  intros (r110 & [= <-] & H)%bind_Return.
  apply bind_Return in H as (slot_1 & H1 & H).
  apply set_charge_slot_inv in H1 as (s1 & v1_start & v1_end & Hi1 & -> & Hv1 & Hv1').
  destruct s1; [discriminate Hi1|]. clear Hi1.
  exists v1_start, v1_end.
  destruct discharge_slot_2 as [slot|];
    apply bind_Return in H as (slot_2 & H2 & [= <-]);
    apply set_charge_slot_inv in H2
      as (s2 & v2_start & v2_end & Hi2 & -> & Hv2);
    (destruct s2; [clear Hi2|discriminate Hi2]);
    exists v2_start, v2_end; by destruct discharge_for_export.
Qed.

Lemma packed_value_bounds (t : time) (v : Z) :
  valid_time t → int_of_str (strftime_HM t) = Return v → 0 ≤ v ≤ 2359.
Proof.
  intros Ht. rewrite (strftime_HM_packs _ Ht). intros [= <-].
  by apply packed_time_bounds.
Qed.

Lemma slot_register_not_power_rate (discharge second_slot : bool) :
  (slot_registers discharge second_slot).1 ≠ RegisterMap.ACTIVE_POWER_RATE
  ∧ (slot_registers discharge second_slot).2 ≠ RegisterMap.ACTIVE_POWER_RATE.
Proof. destruct discharge, second_slot; split; discriminate. Qed.

Lemma slot_shape (op : operation) (discharge : bool) (idx : Z)
    (slot : option TimeSlot) (reqs : list TransparentRequest) :
  (valid_input op → valid_optional_slot slot) →
  CommandBuilder._set_charge_slot discharge idx slot = Return reqs →
  length reqs = 2%nat ∧ Forall (write_shape op) reqs.
Proof.
  intros Hvalid (second_slot & v_start & v_end & _ & -> & Hv)%set_charge_slot_inv.
  split; [reflexivity|].
  destruct (slot_register_not_power_rate discharge second_slot) as [Hs He].
  assert (valid_input op → 0 ≤ v_start ≤ 2359 ∧ 0 ≤ v_end ≤ 2359) as Hbounds.
  { intros Hop. specialize (Hvalid Hop). destruct slot as [slot|].
    - destruct (Hvalid slot eq_refl) as [Hts Hte]. destruct Hv as [Hvs Hve].
      split; [exact (packed_value_bounds _ _ Hts Hvs)
             |exact (packed_value_bounds _ _ Hte Hve)].
    - destruct Hv as [-> ->]. lia. }
  apply List.Forall_cons; [|apply List.Forall_cons; [|apply List.Forall_nil]];
    (split; [assumption|]); intros Hop; left; simpl; apply Hbounds, Hop.
Qed.

Lemma pause_shape (op : operation) (register : Z) (t : option time)
    (reqs : list TransparentRequest) :
  register ≠ RegisterMap.ACTIVE_POWER_RATE →
  (valid_input op → valid_optional_time t) →
  match t with
  | Some t =>
      v ← int_of_str (strftime_HM t);
      mret [WriteHoldingRegisterRequest register (VInt v)]
  | None => mret [WriteHoldingRegisterRequest register (VInt 0)]
  end = Return reqs →
  length reqs = 1%nat ∧ Forall (write_shape op) reqs.
Proof.
  intros Hreg Hvalid (v & -> & Hv)%pause_slot_inv.
  split; [reflexivity|].
  apply List.Forall_cons; [|apply List.Forall_nil].
  split; [assumption|]. intros Hop. left. simpl.
  specialize (Hvalid Hop). destruct t as [t|].
  - exact (packed_value_bounds _ _ (Hvalid t eq_refl) Hv).
  - subst v. lia.
Qed.

Lemma range_shape (op : operation) (lo hi v : Z) (e : exception) (register : Z)
    (reqs : list TransparentRequest) :
  register ≠ RegisterMap.ACTIVE_POWER_RATE →
  0 ≤ lo → hi ≤ 2359 →
  (if negb (bool_decide (lo ≤ v ≤ hi)) then Raise e
   else Return [WriteHoldingRegisterRequest register (VInt v)]) = Return reqs →
  length reqs = 1%nat ∧ Forall (write_shape op) reqs.
Proof.
  intros Hreg Hlo Hhi [Hv ->]%range_checked_inv.
  split; [reflexivity|].
  apply List.Forall_cons; [|apply List.Forall_nil].
  split; [assumption|]. intros _. left. simpl. lia.
Qed.

Lemma storage_shape (op : operation)
    (discharge_slot_1 : TimeSlot) (discharge_slot_2 : option TimeSlot)
    (discharge_for_export : bool) (reqs : list TransparentRequest) :
  (valid_input op → valid_slot discharge_slot_1 ∧ valid_optional_slot discharge_slot_2) →
  CommandBuilder.set_mode_storage discharge_slot_1 discharge_slot_2
    discharge_for_export = Return reqs →
  length reqs = 7%nat ∧ Forall (write_shape op) reqs.
Proof.
  intros Hvalid
    (v1s & v1e & v2s & v2e & -> & Hv1s & Hv1e & Hv2)%mode_storage_inv.
  split; [reflexivity|].
  assert (valid_input op →
          (0 ≤ v1s ≤ 2359 ∧ 0 ≤ v1e ≤ 2359) ∧ 0 ≤ v2s ≤ 2359 ∧ 0 ≤ v2e ≤ 2359)
    as Hbounds.
  { intros Hop. destruct (Hvalid Hop) as [[H1s H1e] H2]. split.
    - split; [exact (packed_value_bounds _ _ H1s Hv1s)
             |exact (packed_value_bounds _ _ H1e Hv1e)].
    - destruct discharge_slot_2 as [slot|].
      + destruct (H2 slot eq_refl) as [H2s H2e]. destruct Hv2 as [Hv2s Hv2e].
        split; [exact (packed_value_bounds _ _ H2s Hv2s)
               |exact (packed_value_bounds _ _ H2e Hv2e)].
      + destruct Hv2 as [-> ->]. lia. }
  repeat (apply List.Forall_cons;
    [split; [discriminate|];
     intros Hop; left; simpl; specialize (Hbounds Hop);
     try destruct discharge_for_export; lia |]).
  apply List.Forall_nil.
Qed.

Ltac constant_write :=
  split; [discriminate|];
  let Hop := fresh in
  intros Hop; left; simpl;
  repeat match goal with b : bool |- _ => destruct b end; simpl; lia.

Lemma date_time_shape (dt : datetime) :
  Forall (write_shape (Set_system_date_time dt))
    (CommandBuilder.set_system_date_time dt).
Proof.
  apply List.Forall_cons.
  { split; [discriminate|]. intros _. right. split; [reflexivity|]. by exists dt. }
  repeat (apply List.Forall_cons;
    [split; [discriminate|];
     intros (Hy & Hm & Hd & Hh & Hmin & Hs); left; simpl; lia |]).
  apply List.Forall_nil.
Qed.

Lemma mode_dynamic_writes :
  CommandBuilder.set_mode_dynamic =
    Return [WriteHoldingRegisterRequest RegisterMap.BATTERY_POWER_MODE (VInt 1);
            WriteHoldingRegisterRequest RegisterMap.BATTERY_SOC_RESERVE (VInt 4);
            WriteHoldingRegisterRequest RegisterMap.ENABLE_DISCHARGE (VBool false)].
Proof. reflexivity. Qed.

Lemma operation_shape (self : CommandBuilder.t) (op : operation)
    (reqs : list TransparentRequest) :
  run self op = Return reqs →
  is_refresh op = false →
  length reqs = request_count op ∧ Forall (write_shape op) reqs.
Proof.
  destruct op; cbn [run is_refresh request_count]; intros Hrun Hnr;
    try discriminate Hnr; clear Hnr; revert Hrun;
    lazymatch goal with
    | |- Return (CommandBuilder.set_system_date_time _) = _ → _ =>
        intros [= <-]; split; [reflexivity | apply date_time_shape]
    | |- Return _ = _ → _ =>
        intros [= <-]; split; [reflexivity | each_request constant_write]
    | |- _ => idtac
    end.
  - unfold CommandBuilder.set_charge_target.
    apply range_shape; [discriminate | lia | lia].
  - unfold CommandBuilder.set_shallow_charge,
      CommandBuilder.set_battery_soc_reserve.
    apply range_shape; [discriminate | lia | lia].
  - unfold CommandBuilder.set_battery_soc_reserve.
    apply range_shape; [discriminate | lia | lia].
  - unfold CommandBuilder.set_battery_charge_limit.
    apply range_shape; [discriminate | lia | lia].
  - unfold CommandBuilder.set_battery_discharge_limit.
    apply range_shape; [discriminate | lia | lia].
  - unfold CommandBuilder.set_battery_power_reserve.
    apply range_shape; [discriminate | lia | lia].
  - unfold CommandBuilder.set_battery_pause_mode.
    apply range_shape; [discriminate | lia | lia].
  - apply slot_shape. by intros ?.
  - unfold CommandBuilder.set_pause_slot_start.
    apply pause_shape; [discriminate | by intros ?].
  - unfold CommandBuilder.set_pause_slot_end.
    apply pause_shape; [discriminate | by intros ?].
  - unfold CommandBuilder.set_charge_slot_1.
    apply slot_shape. by intros Hv s [= <-].
  - unfold CommandBuilder.reset_charge_slot_1.
    apply slot_shape. by intros _ s [=].
  - unfold CommandBuilder.set_charge_slot_2.
    apply slot_shape. by intros Hv s [= <-].
  - unfold CommandBuilder.reset_charge_slot_2.
    apply slot_shape. by intros _ s [=].
  - unfold CommandBuilder.set_discharge_slot_1.
    apply slot_shape. by intros Hv s [= <-].
  - unfold CommandBuilder.reset_discharge_slot_1.
    apply slot_shape. by intros _ s [=].
  - unfold CommandBuilder.set_discharge_slot_2.
    apply slot_shape. by intros Hv s [= <-].
  - unfold CommandBuilder.reset_discharge_slot_2.
    apply slot_shape. by intros _ s [=].
  - rewrite mode_dynamic_writes. intros [= <-].
    split; [reflexivity | each_request constant_write].
  - apply storage_shape. by intros ?.
Qed.

Lemma refresh_has_no_write (self : CommandBuilder.t) (op : operation)
    (reqs : list TransparentRequest) (register : Z) (v : value) :
  run self op = Return reqs → is_refresh op = true →
  WriteHoldingRegisterRequest register v ∉ reqs.
Proof.
  destruct op; try discriminate; simpl; intros [= <-] _ Hin.
  - apply list_elem_of_singleton in Hin. discriminate Hin.
  - pose proof (refresh_plant_data_reads self complete number_batteries
      max_batteries additional_holding_registers) as Hreads.
    rewrite Forall_forall in Hreads. by apply Hreads in Hin.
Qed.

Lemma written_request_shape (self : CommandBuilder.t) (op : operation)
    (reqs : list TransparentRequest) (register : Z) (v : value) :
  run self op = Return reqs →
  WriteHoldingRegisterRequest register v ∈ reqs →
  register ≠ RegisterMap.ACTIVE_POWER_RATE
  ∧ (valid_input op → value_in_bounds op register v).
Proof.
  intros Hrun Hin. destruct (is_refresh op) eqn:Hop.
  - by destruct (refresh_has_no_write _ _ _ register v Hrun Hop).
  - destruct (operation_shape _ _ _ Hrun Hop) as [_ Hshape].
    rewrite Forall_forall in Hshape. apply (Hshape _ Hin).
Qed.

(** X12: [ACTIVE_POWER_RATE] is declared and never used: whatever the
    operation and its arguments, no returned request writes register 50. *)
Theorem active_power_rate_never_written
    (self : CommandBuilder.t) (op : operation) (reqs : list TransparentRequest)
    (v : value) :
  run self op = Return reqs →
  ("ACTIVE_POWER_RATE"%string, 50) ∈ RegisterMap.declarations
  ∧ WriteHoldingRegisterRequest 50 v ∉ reqs.
Proof.
  intros Hrun. split.
  - apply (bool_decide_eq_true_1
      (("ACTIVE_POWER_RATE"%string, 50) ∈ RegisterMap.declarations)).
    vm_compute. reflexivity.
  - intros Hin.
    by destruct (written_request_shape _ _ _ _ _ Hrun Hin) as [Hne _].
Qed.

Lemma active_power_rate_never_written_witness :
  WriteHoldingRegisterRequest 50 (VInt 50) ∉
    [WriteHoldingRegisterRequest 111 (VInt 50)].
Proof.
  apply (active_power_rate_never_written (CommandBuilder.init None)
           (Set_battery_charge_limit 50) _ (VInt 50)).
  reflexivity.
Defined.

(** X13: given clock times and dates Python can construct, every value an
    operation writes lies between 0 and 2359, with one exception: the year
    register of [set_system_date_time] holds the year minus 2000, which no
    check keeps from being negative. *)
Theorem written_values_in_bounds
    (self : CommandBuilder.t) (op : operation) (reqs : list TransparentRequest)
    (register : Z) (v : value) :
  valid_input op →
  run self op = Return reqs →
  WriteHoldingRegisterRequest register v ∈ reqs →
  0 ≤ value_as_int v ≤ 2359
  ∨ (register = RegisterMap.SYSTEM_TIME_YEAR
     ∧ ∃ dt, op = Set_system_date_time dt ∧ value_as_int v = year dt - 2000).
Proof.
  intros Hvalid Hrun Hin.
  destruct (written_request_shape _ _ _ _ _ Hrun Hin) as [_ Hbounds].
  apply Hbounds, Hvalid.
Qed.

Lemma written_values_in_bounds_witness :
  0 ≤ value_as_int (VInt 2330) ≤ 2359
  ∨ (31 = RegisterMap.SYSTEM_TIME_YEAR
     ∧ ∃ dt,
         Set_charge_slot_2
           {| start := {| t_hour := 23; t_minute := 30; t_second := 0 |};
              end_ := {| t_hour := 5; t_minute := 30; t_second := 0 |} |}
         = Set_system_date_time dt
         ∧ value_as_int (VInt 2330) = year dt - 2000).
Proof.
  apply (written_values_in_bounds (CommandBuilder.init None)
           (Set_charge_slot_2
              {| start := {| t_hour := 23; t_minute := 30; t_second := 0 |};
                 end_ := {| t_hour := 5; t_minute := 30; t_second := 0 |} |})
           [WriteHoldingRegisterRequest 31 (VInt 2330);
            WriteHoldingRegisterRequest 32 (VInt 530)]).
  - unfold valid_input, valid_slot, valid_time. simpl. lia.
  - reflexivity.
  - apply list_elem_of_here.
Defined.

(** X14: the number of writes depends on the operation alone, not on its
    arguments: one for each single setting and toggle, two for
    [disable_charge_target] and for each slot operation, six for the date
    and time, three for dynamic mode, and seven for storage mode whether or
    not a secondary slot is given. *)
Theorem write_count_fixed
    (self : CommandBuilder.t) (op : operation) (reqs : list TransparentRequest) :
  run self op = Return reqs →
  is_refresh op = false →
  length reqs = request_count op ∧ Forall (λ r, is_write r = true) reqs.
Proof.
  intros Hrun Hop.
  destruct (operation_shape _ _ _ Hrun Hop) as [Hlen Hshape].
  split; [exact Hlen|].
  eapply Forall_impl; [exact Hshape|]. by intros [].
Qed.

Lemma write_count_fixed_witness :
  length [WriteHoldingRegisterRequest 27 (VInt 1);
          WriteHoldingRegisterRequest 110 (VInt 100);
          WriteHoldingRegisterRequest 59 (VBool true);
          WriteHoldingRegisterRequest 56 (VInt 1600);
          WriteHoldingRegisterRequest 57 (VInt 700);
          WriteHoldingRegisterRequest 44 (VInt 0);
          WriteHoldingRegisterRequest 45 (VInt 0)] = 7%nat.
Proof.
  apply (write_count_fixed (CommandBuilder.init None)
           (Set_mode_storage CommandBuilder.default_discharge_slot_1 None false));
    reflexivity.
Defined.

(** ** The alias that is not a static method *)

(** X15: reached through an instance, [set_shallow_charge] returns no
    requests for any arguments: with no argument the instance itself is
    taken for [val] and [int()] rejects it, with one or more the call has
    too many positional arguments; each way it raises [TypeError]. *)
Theorem shallow_charge_on_instance_always_raises
    (self : CommandBuilder.t) (args : list argument) :
  (∃ msg, call_on_instance self method_set_shallow_charge args =
          Raise (TypeError msg))
  ∧ (∀ v, call_on_instance self method_set_battery_soc_reserve [AInt v] =
          CommandBuilder.set_battery_soc_reserve v)
  ∧ (∀ v, call_on_class method_set_shallow_charge [AInt v] =
          CommandBuilder.set_battery_soc_reserve v).
Proof.
  split; [apply shallow_charge_through_an_instance|]. by split.
Qed.

(** ** The constructor *)

(** X16: the constructor gives the primary slave address 0x11 to a builder
    whose model is unspecified or the all-in-one and 0x32 to every other,
    so a plan of such a builder only reads from 0x11 or from 0x32 upwards,
    and on the other models the primary blocks share the slave address of
    the first battery. *)
Theorem constructor_slave_addresses
    (model : option Model) (complete : bool) (number_batteries max_batteries : Z)
    (extra : option (list Z)) (r : TransparentRequest) (slave : Z) :
  let self := CommandBuilder.init model in
  (CommandBuilder.main_slave_address self = 0x11
   ↔ model = None ∨ model = Some ALL_IN_ONE)
  ∧ (CommandBuilder.main_slave_address self = 0x32
     ↔ ∃ m, model = Some m ∧ m ≠ ALL_IN_ONE)
  ∧ (r ∈ CommandBuilder.refresh_plant_data self complete number_batteries
           max_batteries extra →
     request_slave r = Some slave →
     slave = 0x11 ∨ 0x32 ≤ slave).
Proof.
  intros self.
  assert (CommandBuilder.main_slave_address self = 0x11
          ∧ (model = None ∨ model = Some ALL_IN_ONE)
          ∨ CommandBuilder.main_slave_address self = 0x32
            ∧ ∃ m, model = Some m ∧ m ≠ ALL_IN_ONE) as Hcases.
  { destruct model as [[|code]|]; simpl.
    - left. split; [reflexivity | by right].
    - right. split; [reflexivity | by exists (OTHER_FAMILY code)].
    - left. split; [reflexivity | by left]. }
  split; [|split].
  - destruct Hcases as [[Ha Hm]|[Ha (m & -> & Hne)]]; split; try done.
    + rewrite Ha. discriminate.
    + intros [?|[= ->]]; done.
  - destruct Hcases as [[Ha Hm]|[Ha Hm]]; split; try done.
    + rewrite Ha. discriminate.
    + intros (m & -> & Hne). destruct Hm as [?|[= ->]]; done.
  - intros Hin Hslave.
    pose proof (refresh_plan_only_reads self complete number_batteries
      max_batteries extra) as Hplan.
    rewrite Forall_forall in Hplan. specialize (Hplan r Hin).
    assert (CommandBuilder.main_slave_address self = 0x11
            ∨ CommandBuilder.main_slave_address self = 0x32) as Hprimary
      by (destruct Hcases as [[? _]|[? _]]; tauto).
    destruct r as [sa base cnt|sa base cnt|]; simpl in *; [| |done];
      injection Hslave as ->; lia.
Qed.

Lemma constructor_slave_addresses_witness :
  0x34 = 0x11 ∨ 0x32 ≤ 0x34.
Proof.
  pose proof (constructor_slave_addresses (Some ALL_IN_ONE) false 3 5 None
    (ReadInputRegistersRequest 0x34 60 60) 0x34) as (_ & _ & H).
  apply H; [|reflexivity].
  apply (bool_decide_eq_true_1 (_ ∈ _)). vm_compute. reflexivity.
Defined.
